(** * api-exercise-nodejs: the account and session routes

    A shallow embedding of the Express router of the repository
    (register, login, logout, get and patch of the profile, and the
    login interceptor) and of the Session schema, over an explicit model
    of the two MongoDB collections.

    Conventions.
    - A JavaScript string is a [string], the bytes of its UTF-8
      encoding; a value that may be [undefined] is an [option].
    - A request body is a JSON object; its fields are JSON values of
      any kind, as the router does not validate them.
    - [Date.now()] is an input of every handler (milliseconds, a [Z]),
      once per read; the values are those of a system clock, within
      the range of [Date].
    - Node's SHA-256 and what Mongoose and JavaScript do with a value
      that is not a string where the router expects one are taken from
      outside the repository: the development is parametric in them.
    - An [await]ed promise that rejects, or a thrown exception, ends the
      handler without a response: the [Thrown] result.
    - Requests are served one after the other. *)

From Stdlib Require Import String Ascii List Bool ZArith NArith Lia DecimalString.
Import ListNotations.
Local Open Scope string_scope.

(** ** JavaScript values used by the router *)

Module Js.

(** Truthiness of a value that is a string or [undefined]: the string
    itself when the value is truthy (a non-empty string), [None] when
    [!v] holds. *)
Definition truthy (v : option string) : option string :=
  match v with
  | Some s => if s =? "" then None else Some s
  | None => None
  end.

(** A JSON value as [JSON.parse] gives it; a number is kept as the
    exact decimal [(-1)^neg * mant * 10^exp10] of its literal. *)
#[warnings="-register-all"] Inductive json :=
| JNull
| JBool (b : bool)
| JNum (neg : bool) (mant : N) (exp10 : Z)
| JStr (s : string)
| JArr (l : list json)
| JObj (o : list (string * json)).

(** An object as the list of its own enumerable properties, in
    enumeration order. *)
Definition object := list (string * json).

Fixpoint get (o : object) (k : string) : option json :=
  match o with
  | [] => None
  | (k', v) :: o' => if k' =? k then Some v else get o' k
  end.

(** The double of a decimal is zero: the decimal is zero, or it is at
    most 2^-1075, half the least positive double (ties go to even). *)
Definition number_is_zero (mant : N) (exp10 : Z) : bool :=
  (mant =? 0)%N
  || ((exp10 <? 0)%Z && (Z.of_N mant * 2 ^ 1075 <=? 10 ^ (- exp10))%Z).

(** Truthiness of a field of the body: the value itself when it is
    truthy, [None] when [!v] holds ([undefined], [null], [false], a
    zero, the empty string). *)
Definition truthy_value (v : option json) : option json :=
  match v with
  | None => None
  | Some JNull => None
  | Some (JBool b) => if b then v else None
  | Some (JNum _ m e) => if number_is_zero m e then None else v
  | Some (JStr s) => if s =? "" then None else v
  | Some (JArr _) => v
  | Some (JObj _) => v
  end.

(** [Object.keys(o)] *)
Definition keys (o : object) : list string := map fst o.

(** [Array.prototype.join(",")], which is what [toString] is on an array. *)
Fixpoint join (xs : list string) : string :=
  match xs with
  | [] => ""
  | [x] => x
  | x :: xs' => x ++ "," ++ join xs'
  end.

(** *** StringToNumber

    The result of [ToNumber] on a string, kept exact: a decimal value
    is [(-1)^neg * mant * 10^exp10]. *)
Inductive number :=
| NaN
| Inf (neg : bool)
| Dec (neg : bool) (mant : N) (exp10 : Z).

(** StrWhiteSpaceChar, in UTF-8: TAB, LF, VT, FF, CR, SP, U+00A0,
    U+1680, U+2000 to U+200A, U+2028, U+2029, U+202F, U+205F, U+3000
    and U+FEFF. *)
Definition ws_chars : list (list ascii) :=
  map (map ascii_of_N)
    (app [[9]; [10]; [11]; [12]; [13]; [32]; [194; 160]; [225; 154; 128]]
    (app (map (fun c => [226; 128; c])
              [128; 129; 130; 131; 132; 133; 134; 135; 136; 137; 138;
               168; 169; 175])
         [[226; 129; 159]; [227; 128; 128]; [239; 187; 191]]))%N.

Definition digit_val (c : ascii) : option N :=
  let n := N_of_ascii c in
  if ((48 <=? n) && (n <=? 57))%N then Some (n - 48)%N else None.

Definition hex_val (c : ascii) : option N :=
  let n := N_of_ascii c in
  if ((48 <=? n) && (n <=? 57))%N then Some (n - 48)%N
  else if ((97 <=? n) && (n <=? 102))%N then Some (n - 87)%N
  else if ((65 <=? n) && (n <=? 70))%N then Some (n - 55)%N
  else None.

Definition is_digit (c : ascii) : bool :=
  match digit_val c with Some _ => true | None => false end.

(** [s] without its prefix [p], when it has it. *)
Fixpoint strip_prefix (p s : list ascii) : option (list ascii) :=
  match p, s with
  | [], _ => Some s
  | a :: p', b :: s' => if (a =? b)%char then strip_prefix p' s' else None
  | _ :: _, [] => None
  end.

(** [s] without the first of the sequences [ps] that it begins with. *)
Fixpoint strip_any (ps : list (list ascii)) (s : list ascii)
  : option (list ascii) :=
  match ps with
  | [] => None
  | p :: ps' =>
      match strip_prefix p s with
      | Some s' => Some s'
      | None => strip_any ps' s
      end
  end.

(** [s] without the sequences of [ps] it begins with, at most [fuel]
    of them. *)
Fixpoint drop_seqs (ps : list (list ascii)) (fuel : nat) (s : list ascii)
  : list ascii :=
  match fuel with
  | O => s
  | S fuel' =>
      match strip_any ps s with
      | Some s' => drop_seqs ps fuel' s'
      | None => s
      end
  end.

(** Leading white space goes, then trailing white space (the same
    sequences read backwards); a string has no more white-space
    characters than bytes. *)
Definition trim (s : list ascii) : list ascii :=
  let t := drop_seqs ws_chars (length s) s in
  rev (drop_seqs (map (@rev ascii) ws_chars) (length t) (rev t)).

(** The digits of [s] in base [base], most significant first; [None]
    when a character is not a digit of that base. *)
Fixpoint digits_in (base : N) (acc : N) (s : list ascii) : option N :=
  match s with
  | [] => Some acc
  | c :: s' =>
      match hex_val c with
      | Some d => if (d <? base)%N then digits_in base (acc * base + d)%N s' else None
      | None => None
      end
  end.

(** The longest prefix of decimal digits, and the rest. *)
Fixpoint span_digits (s : list ascii) : list ascii * list ascii :=
  match s with
  | c :: s' =>
      if is_digit c then let (d, r) := span_digits s' in (c :: d, r)
      else ([], s)
  | [] => ([], [])
  end.

Definition dec_val (ds : list ascii) : N :=
  match digits_in 10 0 ds with Some n => n | None => 0%N end.

(** NonDecimalIntegerLiteral: 0x, 0o, 0b and their capitals, then at
    least one digit of the base. *)
Definition non_decimal (s : list ascii) : option N :=
  match s with
  | z :: p :: ((_ :: _) as ds) =>
      if negb (z =? "0")%char then None
      else if (p =? "x")%char || (p =? "X")%char then digits_in 16 0 ds
      else if (p =? "o")%char || (p =? "O")%char then digits_in 8 0 ds
      else if (p =? "b")%char || (p =? "B")%char then digits_in 2 0 ds
      else None
  | _ => None
  end.

(** An optional sign: whether it is a minus, and the rest. *)
Definition strip_sign (s : list ascii) : bool * list ascii :=
  match s with
  | c :: t =>
      if (c =? "-")%char then (true, t)
      else if (c =? "+")%char then (false, t)
      else (false, s)
  | [] => (false, [])
  end.

(** ExponentPart, optional: the exponent when the rest of the literal
    is exactly an exponent part or empty. *)
Definition exponent_part (s : list ascii) : option Z :=
  match s with
  | [] => Some 0%Z
  | e :: s' =>
      if (e =? "e")%char || (e =? "E")%char then
        let (neg, ds) := strip_sign s' in
        match span_digits ds with
        | ((_ :: _) as d, []) =>
            Some (if neg then - Z.of_N (dec_val d) else Z.of_N (dec_val d))%Z
        | _ => None
        end
      else None
  end.

(** StrUnsignedDecimalLiteral without Infinity:
    digits [. digits?] exp?  or  . digits exp? *)
Definition unsigned_decimal (s : list ascii) : option (N * Z) :=
  let (ip, r) := span_digits s in
  let (fp, r') :=
    match r with
    | c :: t => if (c =? ".")%char then span_digits t else ([], r)
    | [] => ([], r)
    end in
  match (ip ++ fp)%list with
  | [] => None
  | _ :: _ =>
      match exponent_part r' with
      | Some e => Some (dec_val (ip ++ fp)%list, (e - Z.of_nat (length fp))%Z)
      | None => None
      end
  end.

Definition Infinity_lit : list ascii := list_ascii_of_string "Infinity".

Definition list_ascii_eqb (a b : list ascii) : bool :=
  (string_of_list_ascii a =? string_of_list_ascii b).

Definition str_decimal (s : list ascii) : number :=
  let (neg, u) := strip_sign s in
  if list_ascii_eqb u Infinity_lit then Inf neg
  else match unsigned_decimal u with
       | Some (m, e) => Dec neg m e
       | None => NaN
       end.

Definition StringToNumber (s : string) : number :=
  let t := trim (list_ascii_of_string s) in
  match t with
  | [] => Dec false 0 0
  | _ =>
      match non_decimal t with
      | Some n => Dec false n 0
      | None => str_decimal t
      end
  end.

(** [x < 1] for the double that [x] rounds to.  The largest double
    below 1 is 1 - 2^-53, and the midpoint 1 - 2^-54 rounds (ties to
    even) up to 1: a positive exact value is below 1 as a double
    exactly when it is below 1 - 2^-54. *)
Definition lt_one (x : number) : bool :=
  match x with
  | NaN => false
  | Inf neg => neg
  | Dec neg m e =>
      if (m =? 0)%N then true
      else if neg then true
      else if (0 <=? e)%Z then false
      else (Z.of_N m * 2 ^ 54 <? (2 ^ 54 - 1) * 10 ^ (- e))%Z
  end.

(** [a < 1] for an array [a] of strings: the array is converted to a
    primitive (its [join]), which is not a number, and then to a
    number. *)
Definition array_lt_one (a : list string) : bool :=
  lt_one (StringToNumber (join a)).

(** A byte of a white-space character. *)
Definition ws_byte (c : ascii) : bool :=
  existsb (existsb (Ascii.eqb c)) ws_chars.

(** The bytes a numeric literal, or the white space around it, is
    made of. *)
Definition lit_char (c : ascii) : bool :=
  ws_byte c
  || match hex_val c with Some _ => true | None => false end
  || existsb (Ascii.eqb c) (list_ascii_of_string "+-.xXoOInity").

End Js.

(** ** Documents and collections *)

Definition ObjectId := N.

(** [SessionSchema] of the session model.  The implicit [_id] of a session
    is never read and is left out. *)
Record Session := {
  sessionKey : string;
  userId : ObjectId;
  expiredAt : Z
}.

(** Modelled from the spec: the user model ([require('../models/user')])
    is not among the sources.  A user has an opaque identity, a name,
    an e-mail, a password digest and a last-updated timestamp. *)
Record User := {
  _id : ObjectId;
  name : string;
  email : string;
  password : string;
  updateAt : Z
}.

(** The database: both collections in natural (insertion) order, and
    the next [ObjectId] the driver hands out. *)
Record Store := {
  users : list User;
  sessions : list Session;
  fresh : ObjectId
}.

Definition empty_store : Store :=
  {| users := []; sessions := []; fresh := 0%N |}.

(** ** Requests, responses and handlers *)

Record Request := {
  session_key_header : option string;   (* req.get('Session-Key') *)
  body : option Js.object               (* req.body *)
}.

(** What a response carries: the text of its status and no data
    ([res.sendStatus]), or one of the two JSON objects of the router. *)
Inductive Payload :=
| StatusText
| LoginResponse (session_key : string)
| UserInfo (name email : string) (update_at : Z).

Record Response := {
  status : nat;
  payload : Payload
}.

Inductive Fault :=
| TypeError          (* a property of [undefined] is read; a value that
                        is not a string is hashed *)
| CastError          (* a query value does not fit the path *)
| ValidationError    (* a [required] path is empty; an assigned value
                        does not fit the path *)
| DuplicateKey.      (* a unique index refuses a write *)

(** How a step of a handler ends: it goes on with a value, it has sent
    the response and returned, or it has thrown. *)
Inductive Result (A : Type) :=
| Next (a : A)
| Sent (r : Response)
| Thrown (f : Fault).

Arguments Next {A} a.
Arguments Sent {A} r.
Arguments Thrown {A} f.

Definition Handler (A : Type) := Store -> Result A * Store.

Definition ret {A} (a : A) : Handler A := fun s => (Next a, s).

Definition bind {A B} (c : Handler A) (k : A -> Handler B) : Handler B :=
  fun s =>
    match c s with
    | (Next a, s') => k a s'
    | (Sent r, s') => (Sent r, s')
    | (Thrown f, s') => (Thrown f, s')
    end.

Notation "x <- c ;; k" := (bind c (fun x => k))
  (at level 61, c at next level, right associativity).

Definition send {A} (r : Response) : Handler A := fun s => (Sent r, s).

Definition throw {A} (f : Fault) : Handler A := fun s => (Thrown f, s).

(** [res.sendStatus(code); return] *)
Definition sendStatus {A} (code : nat) : Handler A :=
  send {| status := code; payload := StatusText |}.

(** [req.body.k]: reading a field of an [undefined] body throws. *)
Definition body_field (req : Request) (k : string)
  : Handler (option Js.json) :=
  match body req with
  | Some o => ret (Js.get o k)
  | None => throw TypeError
  end.

(** The first element satisfying [p] is taken out. *)
Fixpoint remove_first {A} (p : A -> bool) (l : list A) : list A :=
  match l with
  | [] => []
  | x :: l' => if p x then l' else x :: remove_first p l'
  end.

(** The documents [l] with the one of the id of [u'] replaced by [u']. *)
Definition replace_by_id (u' : User) (l : list User) : list User :=
  map (fun v => if (_id v =? _id u')%N then u' else v) l.

(** [Date.now().toString()] *)
Definition Date_toString (t : Z) : string :=
  NilEmpty.string_of_int (Z.to_int t).

(** What the router takes from outside the repository.
    - [sha256Hash]: the SHA-256 hex digest of Node's [crypto] on a
      string.
    - [email_unique_index]: whether the users collection carries a
      unique index on [email] (the user model is not among the
      sources; the spec lists the index).
    - [cast_String]: the string Mongoose makes of a value that is not a
      string when it is assigned to a String path or is the value of a
      query on one; [None] when the cast fails.
    - [query_String]: the test a query on a String path selects by
      when its value is not cast to a string (an object of operators);
      [None] when the query is refused.
    - [loose_ne]: JavaScript's [s != v] for a string [s] and a value
      [v] that is not a string. *)
Class Platform := {
  sha256Hash : string -> string;
  email_unique_index : bool;
  cast_String : Js.json -> option string;
  query_String : Js.json -> option (string -> bool);
  loose_ne : string -> Js.json -> bool
}.

(** A Mongoose document that is being edited: its fields, and whether
    an assignment to one of them failed to cast. *)
Record Doc := {
  doc : User;
  invalid : bool
}.

Section Router.

Context {P : Platform}.

(** *** The model layer: what the Mongoose calls of the router do *)

(** A value as a String path takes it. *)
Definition to_String (v : Js.json) : option string :=
  match v with
  | Js.JStr s => Some s
  | _ => cast_String v
  end.

(** The condition [{email: v}] of a query: equality with the cast of
    [v], or what the operators of [v] ask for. *)
Definition by_email (v : Js.json) : option (User -> bool) :=
  match to_String v with
  | Some s => Some (fun u => email u =? s)
  | None =>
      match query_String v with
      | Some p => Some (fun u => p (email u))
      | None => None
      end
  end.

(** [s != v] *)
Definition ne (s : string) (v : Js.json) : bool :=
  match v with
  | Js.JStr t => negb (s =? t)
  | _ => loose_ne s v
  end.

(** [SessionDao.findOne({sessionKey: k})] *)
Definition SessionDao_findOne (k : string) : Handler (option Session) :=
  fun s => (Next (find (fun se => sessionKey se =? k) (sessions s)), s).

(** [SessionDao.create({sessionKey: k, userId: uid})]: [sessionKey] is
    [required] (an empty string fails validation) and [unique];
    [expiredAt] takes its default, for which the clock is read when the
    document is built: [later]. *)
Definition SessionDao_create (later : Z) (k : string) (uid : ObjectId)
  : Handler Session :=
  fun s =>
    if k =? "" then (Thrown ValidationError, s)
    else if existsb (fun se => sessionKey se =? k) (sessions s)
    then (Thrown DuplicateKey, s)
    else
      let se := {| sessionKey := k; userId := uid;
                   expiredAt := later + 7*24*60*60*1000 |} in
      (Next se, {| users := users s;
                   sessions := sessions s ++ [se];
                   fresh := fresh s |}).

(** [SessionDao.findOneAndRemove({sessionKey: k})] *)
Definition SessionDao_findOneAndRemove (k : string)
  : Handler (option Session) :=
  fun s =>
    (Next (find (fun se => sessionKey se =? k) (sessions s)),
     {| users := users s;
        sessions := remove_first (fun se => sessionKey se =? k) (sessions s);
        fresh := fresh s |}).

(** [UserDao.findOne(q)], the query [q] as a predicate; a query that
    is refused rejects. *)
Definition UserDao_findOne (q : option (User -> bool))
  : Handler (option User) :=
  fun s =>
    match q with
    | Some q => (Next (find q (users s)), s)
    | None => (Thrown CastError, s)
    end.

(** [UserDao.findById(id)] *)
Definition UserDao_findById (id : ObjectId) : Handler (option User) :=
  fun s => (Next (find (fun u => (_id u =? id)%N) (users s)), s).

(** [UserDao.create({name: n, email: e, password: p})]: a name or an
    e-mail that does not cast fails validation. *)
Definition UserDao_create (now : Z) (n e : Js.json) (p : string)
  : Handler User :=
  fun s =>
    match to_String n, to_String e with
    | Some n, Some e =>
        if email_unique_index && existsb (fun u => email u =? e) (users s)
        then (Thrown DuplicateKey, s)
        else
          let u := {| _id := fresh s; name := n; email := e; password := p;
                      updateAt := now |} in
          (Next u, {| users := users s ++ [u];
                      sessions := sessions s;
                      fresh := N.succ (fresh s) |})
    | _, _ => (Thrown ValidationError, s)
    end.

(** [user.save()] for a document read by [findById]: the stored
    document of the same [_id] is replaced.  The index is consulted when
    the e-mail is among the modified paths. *)
Definition UserDao_save (u : User) : Handler unit :=
  fun s =>
    let modified :=
      match find (fun v => (_id v =? _id u)%N) (users s) with
      | Some old => negb (email old =? email u)
      | None => false
      end in
    if email_unique_index && modified
       && existsb (fun v => negb (_id v =? _id u)%N && (email v =? email u))
                  (users s)
    then (Thrown DuplicateKey, s)
    else
      (Next tt,
       {| users := replace_by_id u (users s);
          sessions := sessions s;
          fresh := fresh s |}).

(** [d.save()]: a document with a failed assignment fails validation
    and is not written. *)
Definition Doc_save (d : Doc) : Handler unit :=
  if invalid d then throw ValidationError else UserDao_save (doc d).

(** *** The router *)

(** [sha256Hash(data)]: [hash.update] throws unless [data] is a string
    (or a buffer, which a JSON value never is). *)
Definition sha256Hash_of (data : Js.json) : Handler string :=
  match data with
  | Js.JStr s => ret (sha256Hash s)
  | _ => throw TypeError
  end.

(** [gensessionKey]; the clock is read by [Date.now()]. *)
Definition gensessionKey (now : Z) : string :=
  sha256Hash (Date_toString now).

(** [checkLoginInterceptor]: [Next uid] is the call of [next()] with
    [req.params.userId = uid]. *)
Definition checkLoginInterceptor (req : Request) : Handler ObjectId :=
  match Js.truthy (session_key_header req) with
  | None => sendStatus 401
  | Some k =>
      session <- SessionDao_findOne k ;;
      match session with
      | None => sendStatus 401
      | Some se => ret (userId se)
      end
  end.

(** [router.post('/register', ...)] *)
Definition register (now : Z) (req : Request) : Handler unit :=
  n <- body_field req "name" ;;
  e <- body_field req "email" ;;
  p <- body_field req "password" ;;
  match Js.truthy_value n, Js.truthy_value e, Js.truthy_value p with
  | Some n, Some e, Some p =>
      user <- UserDao_findOne (by_email e) ;;
      match user with
      | Some _ => sendStatus 409
      | None =>
          h <- sha256Hash_of p ;;
          _ <- UserDao_create now n e h ;;
          sendStatus 200
      end
  | _, _, _ => sendStatus 400
  end.

(** [router.post('/login', ...)]: the clock is read for the key
    ([now]) and, when the session is built, for its expiry ([later]).
    The password is hashed when the query is built, before the
    lookup. *)
Definition login (now later : Z) (req : Request) : Handler unit :=
  e <- body_field req "email" ;;
  p <- body_field req "password" ;;
  match Js.truthy_value e, Js.truthy_value p with
  | Some e, Some p =>
      h <- sha256Hash_of p ;;
      user <- UserDao_findOne
                (match by_email e with
                 | Some q => Some (fun u => q u && (password u =? h))
                 | None => None
                 end) ;;
      match user with
      | None => sendStatus 404
      | Some u =>
          session <- SessionDao_create later (gensessionKey now) (_id u) ;;
          send {| status := 200;
                  payload := LoginResponse (sessionKey session) |}
      end
  | _, _ => sendStatus 400
  end.

(** [router.post('/logout', ...)] *)
Definition logout (req : Request) : Handler unit :=
  _ <- match Js.truthy (session_key_header req) with
       | Some k => _ <- SessionDao_findOneAndRemove k ;; ret tt
       | None => ret tt
       end ;;
  sendStatus 200.

(** The handler of [router.get('/user', checkLoginInterceptor, ...)];
    [toLocaleString] is left to the client of [UserInfo]. *)
Definition get_user_handler (uid : ObjectId) : Handler unit :=
  user <- UserDao_findById uid ;;
  match user with
  | None => sendStatus 401
  | Some u =>
      send {| status := 200;
              payload := UserInfo (name u) (email u) (updateAt u) |}
  end.

Definition set_email (u : User) (e : string) : User :=
  {| _id := _id u; name := name u; email := e; password := password u;
     updateAt := updateAt u |}.

Definition set_name (u : User) (n : string) : User :=
  {| _id := _id u; name := n; email := email u; password := password u;
     updateAt := updateAt u |}.

Definition set_password (u : User) (p : string) : User :=
  {| _id := _id u; name := name u; email := email u; password := p;
     updateAt := updateAt u |}.

Definition set_updateAt (u : User) (t : Z) : User :=
  {| _id := _id u; name := name u; email := email u; password := password u;
     updateAt := t |}.

(** [d.path = v] for a String path: the cast of [v] is stored, or the
    failure of the cast is kept for [save]. *)
Definition assign (set : User -> string -> User) (d : Doc) (v : Js.json)
  : Doc :=
  match to_String v with
  | Some s => {| doc := set (doc d) s; invalid := invalid d |}
  | None => {| doc := doc d; invalid := true |}
  end.

(** [d.path = x] for a value [x] of the type of the path. *)
Definition store {A} (set : User -> A -> User) (d : Doc) (x : A) : Doc :=
  {| doc := set (doc d) x; invalid := invalid d |}.

(** The handler of [router.patch('/user', checkLoginInterceptor, ...)].
    The pair threaded through the three [if]s is [(user, isUpdate)]. *)
Definition patch_user_handler (now : Z) (req : Request) (uid : ObjectId)
  : Handler unit :=
  user <- UserDao_findById uid ;;
  match user with
  | None => sendStatus 401
  | Some user =>
      match body req with
      | None => sendStatus 400
      | Some b =>
          if Js.array_lt_one (Js.keys b) then sendStatus 400
          else
            let d := {| doc := user; invalid := false |} in
            st <- match Js.truthy_value (Js.get b "email") with
                  | Some e =>
                      if ne (email user) e then
                        otherUser <- UserDao_findOne (by_email e) ;;
                        match otherUser with
                        | Some _ => sendStatus 409
                        | None => ret (assign set_email d e, true)
                        end
                      else ret (d, false)
                  | None => ret (d, false)
                  end ;;
            let st :=
              match Js.truthy_value (Js.get b "name") with
              | Some n => (assign set_name (fst st) n, true)
              | None => st
              end in
            st <- match Js.truthy_value (Js.get b "password") with
                  | Some p =>
                      h <- sha256Hash_of p ;;
                      ret (store set_password (fst st) h, true)
                  | None => ret st
                  end ;;
            _ <- (if snd st then Doc_save (store set_updateAt (fst st) now)
                  else ret tt) ;;
            sendStatus 200
      end
  end.

(** The two protected routes: the interceptor, then the handler. *)
Definition get_user (req : Request) : Handler unit :=
  uid <- checkLoginInterceptor req ;;
  get_user_handler uid.

Definition patch_user (now : Z) (req : Request) : Handler unit :=
  uid <- checkLoginInterceptor req ;;
  patch_user_handler now req uid.

(** *** Sequential executions *)

Inductive Route :=
| POST_register
| POST_login
| POST_logout
| GET_user
| PATCH_user.

(** One request served to completion: the route, the clock when the
    handler first reads it, the clock when a schema default reads it
    later in the same call, and the request. *)
Record Call := {
  route : Route;
  clock : Z;
  clock_later : Z;
  request : Request
}.

Definition serve (c : Call) : Handler unit :=
  match route c with
  | POST_register => register (clock c) (request c)
  | POST_login => login (clock c) (clock_later c) (request c)
  | POST_logout => logout (request c)
  | GET_user => get_user (request c)
  | PATCH_user => patch_user (clock c) (request c)
  end.

(** The store after the calls [cs], served one after the other. *)
Fixpoint run (cs : list Call) (s : Store) : Store :=
  match cs with
  | [] => s
  | c :: cs' => run cs' (snd (serve c s))
  end.

(** The responses of the calls [cs] ([None]: the handler threw). *)
Fixpoint responses (cs : list Call) (s : Store) : list (option Response) :=
  match cs with
  | [] => []
  | c :: cs' =>
      let (r, s') := serve c s in
      match r with
      | Sent r => Some r
      | _ => None
      end :: responses cs' s'
  end.

End Router.

(** *** Notions the properties are stated with *)

(** The store with every session's expiry timestamp rewritten by [f]. *)
Definition with_expiry (f : Session -> Z) (s : Store) : Store :=
  {| users := users s;
     sessions := map (fun se => {| sessionKey := sessionKey se;
                                   userId := userId se;
                                   expiredAt := f se |}) (sessions s);
     fresh := fresh s |}.

Definition unauthenticated : Response :=
  {| status := 401; payload := StatusText |}.

(** A header that is missing, or empty. *)
Definition absent_or_empty (v : option string) : Prop :=
  v = None \/ v = Some "".

(** A field of the body that is missing, or falsy: [null], [false], a
    number whose double is zero, the empty string. *)
Definition falsy (v : option Js.json) : Prop :=
  v = None \/ v = Some Js.JNull \/ v = Some (Js.JBool false)
  \/ v = Some (Js.JStr "")
  \/ exists neg m e, v = Some (Js.JNum neg m e)
                      /\ Js.number_is_zero m e = true.

(** The stored sessions of the key [T]. *)
Definition sessions_of (T : string) (s : Store) : list Session :=
  filter (fun se => sessionKey se =? T) (sessions s).

(** The response of a login that returns the key [T]. *)
Definition key_response (T : string) : Response :=
  {| status := 200; payload := LoginResponse T |}.

(** [res.sendStatus(code)] as a response. *)
Definition status_only (code : nat) : Response :=
  {| status := code; payload := StatusText |}.

(** What the driver and the two indexes guarantee of a database: user
    ids are distinct and already handed out, e-mails are distinct,
    session keys are distinct and not empty. *)
Record wf (s : Store) : Prop := {
  wf_ids : NoDup (map _id (users s));
  wf_fresh : Forall (fun u => (_id u < fresh s)%N) (users s);
  wf_emails : NoDup (map email (users s));
  wf_keys : NoDup (map sessionKey (sessions s));
  wf_keys_nonempty : Forall (fun se => sessionKey se <> "") (sessions s)
}.

(** The call [c] is a logout that presents the key [T]. *)
Definition logs_out (T : string) (c : Call) : bool :=
  match route c, session_key_header (request c) with
  | POST_logout, Some k => k =? T
  | _, _ => false
  end.

(** The call [c] is a login whose generated key is [T]. *)
Definition generates `{Platform} (T : string) (c : Call) : bool :=
  match route c with
  | POST_login => gensessionKey (clock c) =? T
  | _ => false
  end.

(** Every field among name, e-mail and password that the body of the
    request has with a truthy value has a string. *)
Definition string_fields (req : Request) : Prop :=
  forall o k v,
    body req = Some o -> In k ["name"; "email"; "password"] ->
    Js.truthy_value (Js.get o k) = Some v -> exists t, v = Js.JStr t.

(** A request that presents the key [T]. *)
Definition presenting (T : string) : Request :=
  {| session_key_header := Some T; body := None |}.

(** ** Sample data: a stand-in digest and a small database *)

Module Sample.

Definition digest (s : string) : string := "sha256:" ++ s.

(** A stand-in for Mongoose and JavaScript on values that are not
    strings: booleans cast to their names, nothing else casts; the one
    operator known is [$ne]; a string differs from every value that is
    not a string. *)
Definition platform : Platform :=
  {| sha256Hash := digest;
     email_unique_index := true;
     cast_String := fun v =>
       match v with
       | Js.JBool true => Some "true"
       | Js.JBool false => Some "false"
       | _ => None
       end;
     query_String := fun v =>
       match v with
       | Js.JObj [(op, Js.JStr t)] =>
           if op =? "$ne" then Some (fun x => negb (x =? t)) else None
       | _ => None
       end;
     loose_ne := fun _ _ => true |}.

(** An object whose fields are strings. *)
Definition strings (fields : list (string * string)) : Js.object :=
  map (fun kv => (fst kv, Js.JStr (snd kv))) fields.

Definition alice : User :=
  {| _id := 0%N; name := "Alice"; email := "alice@x.com";
     password := digest "pw1"; updateAt := 1000 |}.

Definition bob : User :=
  {| _id := 1%N; name := "Bob"; email := "b@x.com";
     password := digest "pw"; updateAt := 2000 |}.

(** A session of Alice whose expiry (day 7) is long past at [later]. *)
Definition old_session : Session :=
  {| sessionKey := "k0"; userId := 0%N; expiredAt := 604800000 |}.

Definition later : Z := 9000000000.

Definition store : Store :=
  {| users := [alice; bob]; sessions := [old_session]; fresh := 2%N |}.

Definition json (o : Js.object) : Request :=
  {| session_key_header := None; body := Some o |}.

Definition with_key (k : string) (o : Js.object) : Request :=
  {| session_key_header := Some k; body := Some o |}.

(** A call in which the clock has moved on by a millisecond when it is
    read again. *)
Definition call (r : Route) (t : Z) (q : Request) : Call :=
  {| route := r; clock := t; clock_later := t + 1; request := q |}.

Definition alice_login : Request :=
  json (strings [("email", "alice@x.com"); ("password", "pw1")]).

End Sample.

(** * Properties *)

(** ** The coercion [Object.keys(req.body) < 1] *)

Lemma array_lt_one_nil : Js.array_lt_one [] = true.
Proof. reflexivity. Qed.

Lemma array_lt_one_samples :
  map (fun k => Js.array_lt_one [k])
      ["name"; "0"; "1"; " -3 "; "0.5"; ".5e0"; "5e-1"; "0x0"; "0x1";
       "Infinity"; "-Infinity"; "1e"; "."; "5."; "+.0";
       "0.99999999999999999999"; "0b"; "- 1"]
  = [false; true; false; true; true; true; true; true; false;
     false; true; false; false; false; true;
     false; false; false]
  /\ Js.array_lt_one ["0"; "1"] = false.
Proof. split; reflexivity. Qed.

Lemma array_lt_one_white_space :
  map (fun k => Js.array_lt_one [string_of_list_ascii (map ascii_of_N k)])
      [[194; 160]; [32; 226; 128; 168; 9]; [239; 187; 191; 48];
       [48; 227; 128; 128]; [160]; [226; 128; 139]]%N
  = [true; true; true; true; false; false].
Proof. reflexivity. Qed.

Lemma strip_prefix_spec p :
  forall s s', Js.strip_prefix p s = Some s' -> s = (p ++ s')%list.
Proof.
  induction p as [|a p IH]; simpl; intros s s' H.
  - now inversion H.
  - destruct s as [|b s]; [discriminate|].
    destruct (a =? b)%char eqn:E; [|discriminate].
    apply Ascii.eqb_eq in E. subst b. simpl. f_equal. now apply IH.
Qed.

Lemma strip_any_spec ps :
  forall s s', Js.strip_any ps s = Some s' ->
               exists p, In p ps /\ s = (p ++ s')%list.
Proof.
  induction ps as [|p ps IH]; simpl; intros s s' H; [discriminate|].
  destruct (Js.strip_prefix p s) as [t|] eqn:E.
  - inversion H; subst t. exists p. split; [now left|].
    now apply strip_prefix_spec.
  - destruct (IH _ _ H) as [q [Hq Hs]]. exists q. split; [now right | exact Hs].
Qed.

(** A byte that no sequence of [ps] has is not dropped. *)
Lemma drop_seqs_keeps ps c fuel :
  (forall p, In p ps -> ~ In c p) ->
  forall s, In c s -> In c (Js.drop_seqs ps fuel s).
Proof.
  intros Hps. induction fuel as [|fuel IH]; simpl; intros s Hin; [exact Hin|].
  destruct (Js.strip_any ps s) as [s'|] eqn:E; [|exact Hin].
  apply IH. destruct (strip_any_spec _ _ _ E) as [p [Hp ->]].
  apply in_app_or in Hin. destruct Hin as [Hin|Hin]; [|exact Hin].
  now destruct (Hps p Hp).
Qed.

(** With as much fuel as bytes, every leading sequence is dropped. *)
Lemma drop_seqs_done ps fuel :
  (forall p, In p ps -> p <> []) ->
  forall s, (length s <= fuel)%nat ->
            Js.strip_any ps (Js.drop_seqs ps fuel s) = None.
Proof.
  intros Hps. induction fuel as [|fuel IH]; simpl; intros s Hlen.
  - destruct s; [|simpl in Hlen; lia].
    destruct (Js.strip_any ps []) as [s'|] eqn:E; [|reflexivity].
    destruct (strip_any_spec _ _ _ E) as [p [Hp Hs]].
    symmetry in Hs. apply app_eq_nil in Hs. destruct Hs as [Hs _].
    now destruct (Hps p Hp).
  - destruct (Js.strip_any ps s) as [s'|] eqn:E; [|exact E].
    apply IH. destruct (strip_any_spec _ _ _ E) as [p [Hp ->]].
    rewrite length_app in Hlen.
    destruct p; [now destruct (Hps [] Hp)|]. simpl in Hlen. lia.
Qed.

Lemma ws_byte_false c :
  Js.ws_byte c = false -> forall p, In p Js.ws_chars -> ~ In c p.
Proof.
  unfold Js.ws_byte. intros H p Hp Hin.
  assert (existsb (existsb (Ascii.eqb c)) Js.ws_chars = true); [|congruence].
  apply existsb_exists. exists p. split; [exact Hp|].
  apply existsb_exists. exists c. split; [exact Hin | apply Ascii.eqb_refl].
Qed.

Lemma trim_keeps c l :
  In c l -> Js.ws_byte c = false -> In c (Js.trim l).
Proof.
  intros Hin Hc. unfold Js.trim.
  apply in_rev. rewrite rev_involutive.
  apply drop_seqs_keeps.
  - intros p Hp Hcp. apply in_map_iff in Hp. destruct Hp as [q [<- Hq]].
    apply in_rev in Hcp. exact (ws_byte_false _ Hc _ Hq Hcp).
  - apply -> in_rev. apply drop_seqs_keeps; [|exact Hin].
    now apply ws_byte_false.
Qed.

(** [trim] leaves no white space at either end. *)
Lemma trim_done l :
  Js.strip_any Js.ws_chars (Js.drop_seqs Js.ws_chars (length l) l) = None
  /\ Js.strip_any (map (@rev ascii) Js.ws_chars) (rev (Js.trim l)) = None.
Proof.
  split.
  - apply drop_seqs_done; [|lia].
    intros p Hp ->. revert Hp. vm_compute. intuition discriminate.
  - unfold Js.trim. rewrite rev_involutive. apply drop_seqs_done.
    + intros p Hp ->. revert Hp. vm_compute. intuition discriminate.
    + now rewrite length_rev.
Qed.

Lemma digits_in_lit base l :
  forall acc n, Js.digits_in base acc l = Some n -> Forall (fun c => Js.lit_char c = true) l.
Proof.
  induction l as [|a l IH]; simpl; intros acc n H; [constructor|].
  destruct (Js.hex_val a) as [d|] eqn:Hd; [|discriminate].
  destruct (d <? base)%N; [|discriminate].
  constructor; [|eapply IH; eauto].
  unfold Js.lit_char. rewrite Hd. now rewrite orb_true_r.
Qed.

Lemma is_digit_lit c : Js.is_digit c = true -> Js.lit_char c = true.
Proof.
  unfold Js.is_digit, Js.digit_val, Js.lit_char, Js.hex_val.
  destruct ((48 <=? N_of_ascii c)%N && (N_of_ascii c <=? 57)%N); [|discriminate].
  intros _. now rewrite orb_true_r.
Qed.

Lemma span_digits_spec l :
  forall d r, Js.span_digits l = (d, r) ->
    l = (d ++ r)%list /\ Forall (fun c => Js.lit_char c = true) d.
Proof.
  induction l as [|a l IH]; simpl; intros d r H.
  - inversion H; subst. split; [reflexivity | constructor].
  - destruct (Js.is_digit a) eqn:Ha.
    + destruct (Js.span_digits l) as [d' r'] eqn:Hs.
      inversion H; subst. destruct (IH _ _ eq_refl) as [-> Hd].
      split; [reflexivity|]. constructor; [now apply is_digit_lit | exact Hd].
    + inversion H; subst. split; [reflexivity | constructor].
Qed.

Lemma strip_sign_lit s neg u :
  Js.strip_sign s = (neg, u) ->
  Forall (fun c => Js.lit_char c = true) u ->
  Forall (fun c => Js.lit_char c = true) s.
Proof.
  destruct s as [|c t]; simpl; intros H Hu.
  - constructor.
  - destruct (c =? "-")%char eqn:Hm.
    + apply Ascii.eqb_eq in Hm. inversion H; subst. now constructor.
    + destruct (c =? "+")%char eqn:Hp; inversion H; subst; [|exact Hu].
      apply Ascii.eqb_eq in Hp. subst. now constructor.
Qed.

Lemma exponent_part_lit r e :
  Js.exponent_part r = Some e -> Forall (fun c => Js.lit_char c = true) r.
Proof.
  destruct r as [|c s']; simpl; intros H; [constructor|].
  destruct ((c =? "e")%char || (c =? "E")%char) eqn:Hc; [|discriminate].
  constructor.
  - apply orb_true_iff in Hc.
    destruct Hc as [Hc|Hc]; apply Ascii.eqb_eq in Hc; now subst.
  - destruct (Js.strip_sign s') as [neg ds] eqn:Hs.
    apply (strip_sign_lit _ _ _ Hs).
    destruct (Js.span_digits ds) as [d r] eqn:Hd.
    destruct (span_digits_spec _ _ _ Hd) as [-> Hall].
    destruct d; [discriminate|]. destruct r; [|discriminate].
    now rewrite app_nil_r.
Qed.

Lemma unsigned_decimal_lit u v :
  Js.unsigned_decimal u = Some v -> Forall (fun c => Js.lit_char c = true) u.
Proof.
  unfold Js.unsigned_decimal.
  destruct (Js.span_digits u) as [ip r] eqn:Hip.
  destruct (span_digits_spec _ _ _ Hip) as [-> Hall].
  intros H. apply Forall_app. split; [exact Hall|].
  destruct r as [|c t].
  - constructor.
  - destruct (c =? ".")%char eqn:Hc.
    + apply Ascii.eqb_eq in Hc. subst c.
      destruct (Js.span_digits t) as [fp r'] eqn:Hfp.
      destruct (span_digits_spec _ _ _ Hfp) as [-> Hall'].
      constructor; [reflexivity|]. apply Forall_app. split; [exact Hall'|].
      destruct (ip ++ fp)%list; [discriminate|].
      destruct (Js.exponent_part r') eqn:He; [|discriminate].
      eapply exponent_part_lit; eauto.
    + destruct (ip ++ [])%list; [discriminate|].
      destruct (Js.exponent_part (c :: t)) eqn:He; [|discriminate].
      eapply exponent_part_lit; eauto.
Qed.

Lemma list_ascii_eqb_eq a b : Js.list_ascii_eqb a b = true -> a = b.
Proof.
  unfold Js.list_ascii_eqb. intros H. apply String.eqb_eq in H.
  rewrite <- (list_ascii_of_string_of_list_ascii a), H.
  apply list_ascii_of_string_of_list_ascii.
Qed.

Lemma str_decimal_lit t :
  Js.str_decimal t <> Js.NaN -> Forall (fun c => Js.lit_char c = true) t.
Proof.
  unfold Js.str_decimal.
  destruct (Js.strip_sign t) as [neg u] eqn:Hs. intros H.
  apply (strip_sign_lit _ _ _ Hs).
  destruct (Js.list_ascii_eqb u Js.Infinity_lit) eqn:Hi.
  - apply list_ascii_eqb_eq in Hi. subst u.
    repeat constructor.
  - destruct (Js.unsigned_decimal u) as [v|] eqn:Hu; [|congruence].
    eapply unsigned_decimal_lit; eauto.
Qed.

Lemma non_decimal_lit t n :
  Js.non_decimal t = Some n -> Forall (fun c => Js.lit_char c = true) t.
Proof.
  destruct t as [|z [|p [|c ds]]]; try discriminate.
  unfold Js.non_decimal.
  destruct (z =? "0")%char eqn:Hz; cbn [negb]; [|discriminate].
  apply Ascii.eqb_eq in Hz. subst z.
  assert (Hdig : forall b m, Js.digits_in b 0 (c :: ds) = Some m ->
                 Forall (fun c => Js.lit_char c = true) (c :: ds))
    by (intros; eapply digits_in_lit; eauto).
  assert (Hp : forall a b : ascii, Js.lit_char a = true -> Js.lit_char b = true ->
               (p =? a)%char || (p =? b)%char = true -> Js.lit_char p = true).
  { intros a b Ha Hb H. apply orb_true_iff in H.
    destruct H as [H|H]; apply Ascii.eqb_eq in H; now subst. }
  destruct ((p =? "x")%char || (p =? "X")%char) eqn:Hx.
  { intros H. constructor; [reflexivity|].
    constructor; [eapply Hp; [| |exact Hx]; reflexivity | eauto]. }
  destruct ((p =? "o")%char || (p =? "O")%char) eqn:Ho.
  { intros H. constructor; [reflexivity|].
    constructor; [eapply Hp; [| |exact Ho]; reflexivity | eauto]. }
  destruct ((p =? "b")%char || (p =? "B")%char) eqn:Hb; [|discriminate].
  intros H. constructor; [reflexivity|].
  constructor; [eapply Hp; [| |exact Hb]; reflexivity | eauto].
Qed.

(** A string with a character that no numeric literal has converts to
    [NaN]. *)
Lemma StringToNumber_NaN s c :
  In c (list_ascii_of_string s) -> Js.lit_char c = false ->
  Js.StringToNumber s = Js.NaN.
Proof.
  intros Hin Hc. unfold Js.StringToNumber.
  assert (Hws : Js.ws_byte c = false).
  { unfold Js.lit_char in Hc. now destruct (Js.ws_byte c). }
  pose proof (trim_keeps _ _ Hin Hws) as Ht.
  assert (Hno : ~ Forall (fun c => Js.lit_char c = true)
                      (Js.trim (list_ascii_of_string s))).
  { intros Hall. rewrite Forall_forall in Hall.
    specialize (Hall _ Ht). congruence. }
  destruct (Js.trim (list_ascii_of_string s)) as [|a t] eqn:E; [destruct Ht|].
  destruct (Js.non_decimal (a :: t)) as [n|] eqn:Hn.
  - exfalso. apply Hno. eapply non_decimal_lit; eauto.
  - destruct (Js.str_decimal (a :: t)) eqn:Hd; [reflexivity| |];
      exfalso; apply Hno; apply str_decimal_lit; congruence.
Qed.

Lemma list_ascii_of_string_app a b :
  list_ascii_of_string (a ++ b) =
  (list_ascii_of_string a ++ list_ascii_of_string b)%list.
Proof. induction a as [|c a IH]; simpl; [reflexivity | now rewrite IH]. Qed.

Lemma join_keeps c k ks :
  In k ks -> In c (list_ascii_of_string k) ->
  In c (list_ascii_of_string (Js.join ks)).
Proof.
  induction ks as [|x ks IH]; [intros []|].
  intros Hk Hc. destruct ks as [|y ks].
  - destruct Hk as [->|[]]. exact Hc.
  - change (Js.join (x :: y :: ks)) with (x ++ "," ++ Js.join (y :: ks)).
    rewrite !list_ascii_of_string_app. apply in_or_app.
    destruct Hk as [->|Hk]; [now left|].
    right. apply in_or_app. right. now apply IH.
Qed.

(** An array with a key that has a character no numeric literal has is
    not below 1. *)
Lemma array_lt_one_key c k ks :
  In k ks -> In c (list_ascii_of_string k) -> Js.lit_char c = false ->
  Js.array_lt_one ks = false.
Proof.
  intros Hk Hc Hl. unfold Js.array_lt_one.
  now rewrite (StringToNumber_NaN _ c (join_keeps _ _ _ Hk Hc) Hl).
Qed.

Lemma get_in_keys o k v : Js.get o k = Some v -> In k (Js.keys o).
Proof.
  induction o as [|[k' v'] o IH]; simpl; [discriminate|].
  destruct (k' =? k) eqn:E; [|now right; apply IH].
  apply String.eqb_eq in E. now left.
Qed.

(** A body that has one of the three fields of the router passes the
    emptiness test of PATCH /user. *)
Lemma body_with_field_not_empty o k v :
  k = "name" \/ k = "email" \/ k = "password" ->
  Js.get o k = Some v ->
  Js.array_lt_one (Js.keys o) = false.
Proof.
  intros Hk Hget. apply get_in_keys in Hget.
  destruct Hk as [-> | [-> | ->]].
  - apply (array_lt_one_key "m" _ _ Hget); [simpl; tauto | reflexivity].
  - apply (array_lt_one_key "m" _ _ Hget); [simpl; tauto | reflexivity].
  - apply (array_lt_one_key "p" _ _ Hget); [simpl; tauto | reflexivity].
Qed.

Lemma truthy_Some v x : Js.truthy v = Some x <-> v = Some x /\ x <> "".
Proof.
  unfold Js.truthy. destruct v as [y|].
  - destruct (y =? "") eqn:E.
    + apply String.eqb_eq in E. subst. split; [discriminate|].
      intros [H1 H2]. inversion H1; subst. congruence.
    + apply String.eqb_neq in E. split.
      * intros H; inversion H; subst. auto.
      * intros [H _]. exact H.
  - split; [discriminate | intros [H _]; discriminate].
Qed.

Lemma truthy_nonempty x : x <> "" -> Js.truthy (Some x) = Some x.
Proof. intros H. now apply truthy_Some. Qed.

Lemma find_none_iff {A} (p : A -> bool) l :
  find p l = None <-> forall x, In x l -> p x = false.
Proof.
  split; [apply find_none|].
  induction l as [|a l IH]; simpl; intros H; [reflexivity|].
  rewrite (H a (or_introl eq_refl)). apply IH. intros x Hx. apply H. now right.
Qed.

Lemma find_unique_key (l : list Session) se :
  NoDup (map sessionKey l) -> In se l ->
  find (fun x => sessionKey x =? sessionKey se) l = Some se.
Proof.
  induction l as [|a l IH]; simpl; [intros _ []|].
  intros Hnd Hin. inversion Hnd as [|? ? Hnotin Hnd']; subst.
  destruct Hin as [->|Hin].
  - now rewrite String.eqb_refl.
  - destruct (sessionKey a =? sessionKey se) eqn:E; [|now apply IH].
    apply String.eqb_eq in E. exfalso. apply Hnotin. rewrite E.
    now apply in_map.
Qed.


Lemma truthy_None v : Js.truthy v = None <-> absent_or_empty v.
Proof.
  unfold Js.truthy, absent_or_empty. destruct v as [y|]; [|tauto].
  destruct (y =? "") eqn:E.
  - apply String.eqb_eq in E. subst. tauto.
  - apply String.eqb_neq in E. split; [discriminate|].
    intros [H|H]; [discriminate | inversion H; congruence].
Qed.

Lemma find_none_existsb {A} (p : A -> bool) l :
  find p l = None -> existsb p l = false.
Proof.
  induction l as [|a l IH]; simpl; [reflexivity|].
  destruct (p a); [discriminate | exact IH].
Qed.

Lemma remove_first_none {A} (p : A -> bool) l :
  (forall x, In x l -> p x = false) -> remove_first p l = l.
Proof.
  induction l as [|a l IH]; simpl; intros H; [reflexivity|].
  rewrite (H a (or_introl eq_refl)). f_equal. apply IH.
  intros x Hx. apply H. now right.
Qed.

Lemma remove_first_incl {A} (p : A -> bool) l x :
  In x (remove_first p l) -> In x l.
Proof.
  induction l as [|a l IH]; simpl; [tauto|].
  destruct (p a); simpl; [tauto|]. intros [H|H]; [now left | right; auto].
Qed.

Lemma remove_first_keeps {A} (p : A -> bool) l x :
  In x l -> p x = false -> In x (remove_first p l).
Proof.
  induction l as [|a l IH]; simpl; [tauto|].
  intros [->|Hin] Hp.
  - rewrite Hp. now left.
  - destruct (p a); [exact Hin | right; auto].
Qed.

(** With distinct keys, taking out the first session of key [k] leaves
    no session of key [k]. *)
Lemma remove_first_key k (l : list Session) :
  NoDup (map sessionKey l) ->
  forall se, In se (remove_first (fun x => sessionKey x =? k) l) ->
             sessionKey se <> k.
Proof.
  induction l as [|a l IH]; simpl; [intros _ ? []|].
  intros Hnd se Hin. inversion Hnd as [|? ? Hnotin Hnd']; subst.
  destruct (sessionKey a =? k) eqn:E.
  - apply String.eqb_eq in E. intros Hk. apply Hnotin. rewrite E, <- Hk.
    now apply in_map.
  - destruct Hin as [<-|Hin]; [now apply String.eqb_neq | now apply IH].
Qed.

Lemma remove_first_NoDup {A B} (f : A -> B) (p : A -> bool) l :
  NoDup (map f l) -> NoDup (map f (remove_first p l)).
Proof.
  induction l as [|a l IH]; simpl; intros Hnd; [constructor|].
  inversion Hnd as [|? ? Hnotin Hnd']; subst.
  destruct (p a); [exact Hnd'|]. simpl. constructor; [|now apply IH].
  intros Hin. apply Hnotin. apply in_map_iff in Hin.
  destruct Hin as [x [Hx Hin]]. rewrite <- Hx. apply in_map.
  eapply remove_first_incl; eauto.
Qed.

Lemma NoDup_snoc {A} (l : list A) x :
  NoDup l -> ~ In x l -> NoDup (l ++ [x]).
Proof.
  induction l as [|a l IH]; simpl; intros Hnd Hx.
  - constructor; [tauto | constructor].
  - inversion Hnd as [|? ? Ha Hnd']; subst. constructor.
    + rewrite in_app_iff. simpl. intros [H|[H|[]]]; [tauto|].
      apply Hx. now left.
    + apply IH; [exact Hnd' | tauto].
Qed.

(** *** Replacing the document of a given id, as [save] does *)

Lemma replace_by_id_ids u' l : map _id (replace_by_id u' l) = map _id l.
Proof.
  induction l as [|a l IH]; simpl; [reflexivity|]. rewrite IH. f_equal.
  destruct (_id a =? _id u')%N eqn:E; [|reflexivity].
  apply N.eqb_eq in E. now rewrite E.
Qed.

Lemma replace_by_id_absent u' l :
  ~ In (_id u') (map _id l) -> replace_by_id u' l = l.
Proof.
  induction l as [|a l IH]; simpl; intros H; [reflexivity|].
  destruct (_id a =? _id u')%N eqn:E.
  - apply N.eqb_eq in E. tauto.
  - f_equal. apply IH. tauto.
Qed.

Lemma replace_by_id_in u' l v :
  In v (replace_by_id u' l) -> v = u' \/ In v l.
Proof.
  induction l as [|a l IH]; simpl; [tauto|].
  intros [H|H]; [|destruct (IH H); tauto].
  destruct (_id a =? _id u')%N; [now left | right; now left].
Qed.

(** Replacing the document of [u] by one with the same e-mail, or with
    an e-mail that no document has, keeps the e-mails distinct. *)
Lemma replace_by_id_emails u u' l :
  NoDup (map _id l) -> NoDup (map email l) ->
  find (fun v => (_id v =? _id u')%N) l = Some u ->
  (email u' = email u \/ forall v, In v l -> email v <> email u') ->
  NoDup (map email (replace_by_id u' l)).
Proof.
  induction l as [|a l IH]; simpl; [discriminate|].
  intros Hids Hems Hf Hnew.
  inversion Hids as [|? ? Hida Hids']; subst.
  inversion Hems as [|? ? Hema Hems']; subst.
  destruct (_id a =? _id u')%N eqn:E.
  - inversion Hf; subst a. apply N.eqb_eq in E.
    fold (replace_by_id u' l).
    rewrite replace_by_id_absent by (now rewrite <- E).
    constructor; [|exact Hems'].
    destruct Hnew as [Hsame|Hnone]; [now rewrite Hsame|].
    intros Hin. apply in_map_iff in Hin. destruct Hin as [v [Hv Hin]].
    apply (Hnone v); [now right | exact Hv].
  - fold (replace_by_id u' l). constructor.
    + intros Hin. apply in_map_iff in Hin. destruct Hin as [v [Hv Hin]].
      apply replace_by_id_in in Hin. destruct Hin as [->|Hin].
      * destruct Hnew as [Hsame|Hnone].
        -- apply Hema. rewrite <- Hv, Hsame. apply in_map.
           now apply find_some in Hf.
        -- apply (Hnone a); [now left | now rewrite Hv].
      * apply Hema. rewrite <- Hv. now apply in_map.
    + apply IH; try assumption.
      destruct Hnew as [Hsame|Hnone]; [now left | right].
      intros v Hin. apply Hnone. now right.
Qed.

(** ** Truthiness of the fields of a body *)

Lemma truthy_value_None v : Js.truthy_value v = None <-> falsy v.
Proof.
  unfold falsy. split.
  - destruct v as [[|b|neg m e|s|l|o]|]; simpl; try discriminate; try tauto.
    + destruct b; [discriminate | tauto].
    + destruct (Js.number_is_zero m e) eqn:E; [|discriminate].
      intros _. do 4 right. now exists neg, m, e.
    + destruct (s =? "") eqn:E; [|discriminate].
      apply String.eqb_eq in E. subst. tauto.
  - intros [->|[->|[->|[->|[neg [m [e [-> H]]]]]]]]; simpl; try reflexivity.
    now rewrite H.
Qed.

Lemma truthy_value_Some v x : Js.truthy_value v = Some x -> v = Some x.
Proof.
  destruct v as [[|b|neg m e|s|l|o]|]; simpl; try discriminate; try tauto.
  - now destruct b.
  - now destruct (Js.number_is_zero m e).
  - now destruct (s =? "").
Qed.

Lemma truthy_value_string s :
  s <> "" -> Js.truthy_value (Some (Js.JStr s)) = Some (Js.JStr s).
Proof. intros H. simpl. apply String.eqb_neq in H. now rewrite H. Qed.

(** ** Lookups in the two collections *)

Lemma find_unique_id (l : list User) u :
  NoDup (map _id l) -> In u l ->
  find (fun v => (_id v =? _id u)%N) l = Some u.
Proof.
  induction l as [|a l IH]; simpl; [intros _ []|].
  intros Hnd Hin. inversion Hnd as [|? ? Hnotin Hnd']; subst.
  destruct Hin as [->|Hin].
  - now rewrite N.eqb_refl.
  - destruct (_id a =? _id u)%N eqn:E; [|now apply IH].
    apply N.eqb_eq in E. exfalso. apply Hnotin. rewrite E. now apply in_map.
Qed.

Lemma find_unique_credentials (l : list User) u :
  NoDup (map email l) -> In u l ->
  find (fun v => (email v =? email u) && (password v =? password u)) l
  = Some u.
Proof.
  induction l as [|a l IH]; simpl; [intros _ []|].
  intros Hnd Hin. inversion Hnd as [|? ? Hnotin Hnd']; subst.
  destruct Hin as [->|Hin].
  - now rewrite !String.eqb_refl.
  - destruct (email a =? email u) eqn:E; [|now apply IH].
    apply String.eqb_eq in E. exfalso. apply Hnotin. rewrite E.
    now apply in_map.
Qed.

Lemma find_app_some {A} (p : A -> bool) l l' x :
  find p l = Some x -> find p (l ++ l') = Some x.
Proof.
  induction l as [|a l IH]; simpl; [discriminate|].
  destruct (p a); [tauto | exact IH].
Qed.

Lemma find_app_none {A} (p : A -> bool) l l' :
  find p l = None -> find p (l ++ l') = find p l'.
Proof.
  induction l as [|a l IH]; simpl; [reflexivity|].
  destruct (p a); [discriminate | exact IH].
Qed.

(** Taking out the first session of another key does not change the
    lookup of the key [k]. *)
Lemma find_remove_first_other k k' (l : list Session) :
  k <> k' ->
  find (fun se => sessionKey se =? k)
       (remove_first (fun se => sessionKey se =? k') l)
  = find (fun se => sessionKey se =? k) l.
Proof.
  intros Hne. induction l as [|a l IH]; simpl; [reflexivity|].
  destruct (sessionKey a =? k') eqn:E'.
  - destruct (sessionKey a =? k) eqn:E; [|reflexivity].
    apply String.eqb_eq in E, E'. congruence.
  - simpl. now rewrite IH.
Qed.

Lemma find_replace_by_id u u' (l : list User) :
  find (fun v => (_id v =? _id u')%N) l = Some u ->
  find (fun v => (_id v =? _id u')%N) (replace_by_id u' l) = Some u'.
Proof.
  induction l as [|a l IH]; simpl; [discriminate|].
  destruct (_id a =? _id u')%N eqn:E.
  - intros _. now rewrite N.eqb_refl.
  - rewrite E. exact IH.
Qed.

Lemma replace_by_id_length u' l : length (replace_by_id u' l) = length l.
Proof. apply length_map. Qed.

Lemma NoDup_map_inj {A B} (f : A -> B) l x y :
  NoDup (map f l) -> In x l -> In y l -> f x = f y -> x = y.
Proof.
  induction l as [|a l IH]; simpl; [tauto|].
  intros Hnd Hx Hy Hf. inversion Hnd as [|? ? Hnotin Hnd']; subst.
  destruct Hx as [->|Hx], Hy as [->|Hy]; auto.
  - exfalso. apply Hnotin. rewrite Hf. now apply in_map.
  - exfalso. apply Hnotin. rewrite <- Hf. now apply in_map.
Qed.

(** After the document of [u] is replaced by one with another e-mail,
    no document has the e-mail of [u]. *)
Lemma replace_by_id_old_email u u' l :
  NoDup (map _id l) -> NoDup (map email l) ->
  find (fun v => (_id v =? _id u')%N) l = Some u ->
  email u' <> email u ->
  forall v, In v (replace_by_id u' l) -> email v <> email u.
Proof.
  induction l as [|a l IH]; simpl; [discriminate|].
  intros Hids Hems Hf Hne v Hin.
  inversion Hids as [|? ? Hida Hids']; subst.
  inversion Hems as [|? ? Hema Hems']; subst.
  destruct (_id a =? _id u')%N eqn:E.
  - inversion Hf; subst a. apply N.eqb_eq in E.
    fold (replace_by_id u' l) in Hin.
    rewrite replace_by_id_absent in Hin by (now rewrite <- E).
    destruct Hin as [<-|Hin]; [exact Hne|].
    intros Hv. apply Hema. rewrite <- Hv. now apply in_map.
  - destruct Hin as [<-|Hin].
    + intros Hv. apply Hema. rewrite Hv. apply in_map.
      now apply find_some in Hf.
    + now apply IH.
Qed.

(** The replaced document is the one found under its new e-mail when
    no document had that e-mail. *)
Lemma find_email_replace_by_id u u' l :
  find (fun v => (_id v =? _id u')%N) l = Some u ->
  (forall v, In v l -> email v <> email u') ->
  find (fun v => email v =? email u') (replace_by_id u' l) = Some u'.
Proof.
  induction l as [|a l IH]; simpl; [discriminate|].
  intros Hf Hnone. destruct (_id a =? _id u')%N eqn:E.
  - now rewrite String.eqb_refl.
  - assert (Ha : (email a =? email u') = false)
      by (apply String.eqb_neq; apply Hnone; now left).
    rewrite Ha. apply IH; [exact Hf|]. intros v Hin. apply Hnone. now right.
Qed.

Lemma join_two_comma x y ks :
  In ","%char (list_ascii_of_string (Js.join (x :: y :: ks))).
Proof.
  change (Js.join (x :: y :: ks)) with (x ++ "," ++ Js.join (y :: ks)).
  rewrite !list_ascii_of_string_app. apply in_or_app. right.
  apply in_or_app. left. simpl. now left.
Qed.

(** ** Counting the sessions of a key *)

Lemma filter_remove_first_le {A} (p p' : A -> bool) l :
  (length (filter p (remove_first p' l)) <= length (filter p l))%nat.
Proof.
  induction l as [|a l IH]; simpl; [lia|].
  destruct (p' a); simpl; destruct (p a); simpl; lia.
Qed.

Lemma filter_remove_first_same {A} (p : A -> bool) l :
  length (filter p (remove_first p l)) = pred (length (filter p l)).
Proof.
  induction l as [|a l IH]; simpl; [reflexivity|].
  destruct (p a) eqn:E; simpl; [reflexivity|]. now rewrite E.
Qed.

Lemma filter_nil_iff {A} (p : A -> bool) l :
  length (filter p l) = 0%nat <-> forall x, In x l -> p x = false.
Proof.
  induction l as [|a l IH]; simpl; [tauto|].
  destruct (p a) eqn:E; simpl.
  - split; [discriminate|]. intros H. specialize (H a (or_introl eq_refl)).
    congruence.
  - rewrite IH. split.
    + intros H x [<-|Hx]; auto.
    + intros H x Hx. apply H. now right.
Qed.


(** No white-space character is the beginning of another: the one a
    string begins with is the one dropped. *)
Lemma strip_any_ws w r :
  In w Js.ws_chars -> Js.strip_any Js.ws_chars (w ++ r) = Some r.
Proof.
  intros Hw. vm_compute in Hw.
  repeat (destruct Hw as [<- | Hw]; [reflexivity|]).
  destruct Hw.
Qed.

Lemma drop_seqs_ws ws :
  Forall (fun w => In w Js.ws_chars) ws ->
  forall fuel, (length ws <= fuel)%nat ->
               Js.drop_seqs Js.ws_chars fuel (concat ws) = [].
Proof.
  induction 1 as [|w ws Hw _ IH]; intros fuel Hlen.
  - now destruct fuel.
  - destruct fuel as [|fuel]; [simpl in Hlen; lia|].
    cbn [concat Js.drop_seqs]. rewrite (strip_any_ws _ _ Hw).
    apply IH. simpl in Hlen. lia.
Qed.

Lemma ws_length ws :
  Forall (fun w => In w Js.ws_chars) ws ->
  (length ws <= length (concat ws))%nat.
Proof.
  induction 1 as [|w ws Hw _ IH]; simpl; [lia|].
  rewrite length_app. destruct w; [|simpl; lia].
  revert Hw. vm_compute. intuition discriminate.
Qed.

(** A string of white space trims to nothing. *)
Lemma trim_ws ws :
  Forall (fun w => In w Js.ws_chars) ws -> Js.trim (concat ws) = [].
Proof.
  intros H. unfold Js.trim.
  now rewrite (drop_seqs_ws ws H _ (ws_length ws H)).
Qed.
Section Properties.

Context {P : Platform}.

(** ** The login interceptor *)

(** The interceptor, by cases on the header and on the lookup. *)
Lemma checkLoginInterceptor_eq req s :
  checkLoginInterceptor req s =
  match Js.truthy (session_key_header req) with
  | None => (Sent unauthenticated, s)
  | Some k =>
      match find (fun se => sessionKey se =? k) (sessions s) with
      | None => (Sent unauthenticated, s)
      | Some se => (Next (userId se), s)
      end
  end.
Proof.
  unfold checkLoginInterceptor.
  destruct (Js.truthy (session_key_header req)) as [k|]; [|reflexivity].
  unfold bind, SessionDao_findOne.
  now destruct (find (fun se => sessionKey se =? k) (sessions s)).
Qed.

(** C1.  The interceptor answers 401 without a presented key (no
    header, or an empty one) and when no session has the presented key;
    with a session of that key it goes on with the user id of that
    session; and its result does not depend on any expiry timestamp, so
    that an expired session that is still stored is accepted. *)
Theorem auth_gate_contract (req : Request) (s : Store) :
  (session_key_header req = None \/ session_key_header req = Some "" ->
   checkLoginInterceptor req s = (Sent unauthenticated, s))
  /\ (forall k, session_key_header req = Some k ->
       (forall se, In se (sessions s) -> sessionKey se <> k) ->
       checkLoginInterceptor req s = (Sent unauthenticated, s))
  /\ (forall k se, session_key_header req = Some k -> k <> "" ->
       find (fun se => sessionKey se =? k) (sessions s) = Some se ->
       checkLoginInterceptor req s = (Next (userId se), s))
  /\ (forall k se, session_key_header req = Some k -> k <> "" ->
       NoDup (map sessionKey (sessions s)) ->
       In se (sessions s) -> sessionKey se = k ->
       forall now, (expiredAt se < now)%Z ->
       checkLoginInterceptor req s = (Next (userId se), s))
  /\ (forall f, fst (checkLoginInterceptor req (with_expiry f s))
                = fst (checkLoginInterceptor req s)).
Proof.
  repeat split.
  - intros [H|H]; rewrite checkLoginInterceptor_eq, H; reflexivity.
  - intros k Hk Hnone. rewrite checkLoginInterceptor_eq, Hk.
    destruct (Js.truthy (Some k)) as [k'|] eqn:Ht; [|reflexivity].
    apply truthy_Some in Ht. destruct Ht as [Ht _]. inversion Ht; subst k'.
    assert (Hf : find (fun se => sessionKey se =? k) (sessions s) = None).
    { apply find_none_iff. intros se Hin. apply String.eqb_neq. auto. }
    now rewrite Hf.
  - intros k se Hk Hne Hf.
    now rewrite checkLoginInterceptor_eq, Hk, (truthy_nonempty _ Hne), Hf.
  - intros k se Hk Hne Hnd Hin Hkey now _.
    rewrite checkLoginInterceptor_eq, Hk, (truthy_nonempty _ Hne), <- Hkey.
    now rewrite (find_unique_key _ _ Hnd Hin).
  - intros f. rewrite !checkLoginInterceptor_eq.
    destruct (Js.truthy (session_key_header req)) as [k|]; [|reflexivity].
    unfold with_expiry; cbn [sessions].
    set (g := fun se => {| sessionKey := sessionKey se; userId := userId se;
                           expiredAt := f se |}).
    assert (H : forall l,
      option_map userId (find (fun se => sessionKey se =? k) (map g l))
      = option_map userId (find (fun se => sessionKey se =? k) l)).
    { induction l as [|a l IH]; [reflexivity|].
      cbn [map find g sessionKey].
      destruct (sessionKey a =? k); [reflexivity | exact IH]. }
    specialize (H (sessions s)).
    destruct (find _ (map g (sessions s))), (find _ (sessions s));
      simpl in *; congruence.
Qed.


(** ** POST /register *)

(** Registration with three non-empty strings. *)
Lemma register_eq now req o n e p s :
  body req = Some o ->
  Js.get o "name" = Some (Js.JStr n) -> n <> "" ->
  Js.get o "email" = Some (Js.JStr e) -> e <> "" ->
  Js.get o "password" = Some (Js.JStr p) -> p <> "" ->
  register now req s =
  match find (fun u => email u =? e) (users s) with
  | Some _ => (Sent (status_only 409), s)
  | None =>
      (Sent (status_only 200),
       {| users := users s ++
            [{| _id := fresh s; name := n; email := e;
                password := sha256Hash p; updateAt := now |}];
          sessions := sessions s;
          fresh := N.succ (fresh s) |})
  end.
Proof.
  intros Hb Hn Hnn He Hne Hp Hnp.
  unfold register, body_field, bind. rewrite Hb. cbn [ret].
  rewrite Hn, He, Hp, !truthy_value_string by assumption.
  unfold UserDao_findOne, UserDao_create, by_email, sha256Hash_of, ret.
  cbn [to_String].
  destruct (find (fun u => email u =? e) (users s)) eqn:Hf; [reflexivity|].
  now rewrite (find_none_existsb _ _ Hf), andb_false_r.
Qed.



(** ** POST /login *)

(** Login with two non-empty strings. *)
Lemma login_eq now later req o e p s :
  body req = Some o ->
  Js.get o "email" = Some (Js.JStr e) -> e <> "" ->
  Js.get o "password" = Some (Js.JStr p) -> p <> "" ->
  login now later req s =
  match find (fun u => (email u =? e) && (password u =? sha256Hash p))
             (users s) with
  | None => (Sent (status_only 404), s)
  | Some u =>
      if gensessionKey now =? "" then (Thrown ValidationError, s)
      else if existsb (fun se => sessionKey se =? gensessionKey now)
                      (sessions s)
      then (Thrown DuplicateKey, s)
      else
        (Sent (key_response (gensessionKey now)),
         {| users := users s;
            sessions := sessions s ++
              [{| sessionKey := gensessionKey now; userId := _id u;
                  expiredAt := later + 7*24*60*60*1000 |}];
            fresh := fresh s |})
  end.
Proof.
  intros Hb He Hne Hp Hnp.
  unfold login, body_field, bind. rewrite Hb. cbn [ret].
  rewrite He, Hp, !truthy_value_string by assumption.
  unfold UserDao_findOne, SessionDao_create, by_email, sha256Hash_of, ret.
  cbn [to_String].
  destruct (find _ (users s)) as [u|]; [|reflexivity].
  destruct (gensessionKey now =? ""); [reflexivity|].
  now destruct (existsb _ (sessions s)).
Qed.

(** What a login that is answered with a key has done. *)
Lemma login_key_inv now later req s r s1 :
  login now later req s = (Sent r, s1) ->
  payload r <> StatusText ->
  r = key_response (gensessionKey now)
  /\ gensessionKey now <> ""
  /\ (forall se, In se (sessions s) -> sessionKey se <> gensessionKey now)
  /\ exists o e p q u,
       body req = Some o
       /\ Js.get o "email" = Some e
       /\ Js.get o "password" = Some (Js.JStr p)
       /\ by_email e = Some q
       /\ find (fun v => q v && (password v =? sha256Hash p)) (users s)
          = Some u
       /\ s1 = {| users := users s;
                  sessions := sessions s ++
                    [{| sessionKey := gensessionKey now; userId := _id u;
                        expiredAt := later + 7*24*60*60*1000 |}];
                  fresh := fresh s |}.
Proof.
  unfold login, body_field, bind, ret, throw, sendStatus, send.
  destruct (body req) as [o|]; [|discriminate].
  destruct (Js.truthy_value (Js.get o "email")) as [e|] eqn:He;
    [|intros [= <- _]; now intros []].
  destruct (Js.truthy_value (Js.get o "password")) as [p|] eqn:Hp;
    [|intros [= <- _]; now intros []].
  apply truthy_value_Some in He, Hp.
  unfold sha256Hash_of, ret, throw.
  destruct p as [|b|neg m x|p|l|o']; try discriminate.
  unfold UserDao_findOne.
  destruct (by_email e) as [q|] eqn:Hq; [|discriminate].
  destruct (find _ (users s)) as [u|] eqn:Hf;
    [|intros [= <- _]; now intros []].
  unfold SessionDao_create.
  destruct (gensessionKey now =? "") eqn:Hk; [discriminate|].
  destruct (existsb _ (sessions s)) eqn:Hx; [discriminate|].
  cbn [sessionKey]. intros [= <- <-] _.
  split; [reflexivity|]. split; [now apply String.eqb_neq|]. split.
  - intros se Hin. apply String.eqb_neq.
    destruct (sessionKey se =? gensessionKey now) eqn:E; [|reflexivity].
    assert (existsb (fun se => sessionKey se =? gensessionKey now)
                    (sessions s) = true)
      by (apply existsb_exists; eauto).
    congruence.
  - now exists o, e, p, q, u.
Qed.

(** C2.  Two failed logins against the same database, one with an
    e-mail that no user has, one with the e-mail of a stored user and a
    password whose digest is not the stored one: both are answered by
    the same 404 response, and neither changes the database. *)
Theorem login_failure_symmetry (s : Store) (now1 later1 now2 later2 : Z)
    (req1 req2 : Request) (o1 o2 : Js.object) (e1 p1 e2 p2 : string) :
  body req1 = Some o1 -> body req2 = Some o2 ->
  Js.get o1 "email" = Some (Js.JStr e1) -> e1 <> "" ->
  Js.get o1 "password" = Some (Js.JStr p1) -> p1 <> "" ->
  Js.get o2 "email" = Some (Js.JStr e2) -> e2 <> "" ->
  Js.get o2 "password" = Some (Js.JStr p2) -> p2 <> "" ->
  (forall u, In u (users s) -> email u <> e1) ->
  (exists u, In u (users s) /\ email u = e2) ->
  (forall u, In u (users s) -> email u = e2 ->
             password u <> sha256Hash p2) ->
  login now1 later1 req1 s = (Sent (status_only 404), s)
  /\ login now2 later2 req2 s = (Sent (status_only 404), s).
Proof.
  intros Hb1 Hb2 He1 He1' Hp1 Hp1' He2 He2' Hp2 Hp2' Hunknown _ Hwrong.
  rewrite (login_eq now1 later1 req1 o1 e1 p1 s),
          (login_eq now2 later2 req2 o2 e2 p2 s) by assumption.
  assert (H1 : find (fun u => (email u =? e1) && (password u =? sha256Hash p1))
                    (users s) = None).
  { apply find_none_iff. intros u Hin.
    apply andb_false_iff. left. apply String.eqb_neq. auto. }
  assert (H2 : find (fun u => (email u =? e2) && (password u =? sha256Hash p2))
                    (users s) = None).
  { apply find_none_iff. intros u Hin.
    destruct (email u =? e2) eqn:E; [|reflexivity].
    apply String.eqb_eq in E. simpl. apply String.eqb_neq. auto. }
  now rewrite H1, H2.
Qed.

(** ** POST /logout *)

Lemma logout_eq req s :
  logout req s =
  (Sent (status_only 200),
   match Js.truthy (session_key_header req) with
   | Some k =>
       {| users := users s;
          sessions := remove_first (fun se => sessionKey se =? k) (sessions s);
          fresh := fresh s |}
   | None => s
   end).
Proof.
  unfold logout, bind.
  now destruct (Js.truthy (session_key_header req)).
Qed.

(** C7.  Logout answers 200 in every case; without a presented key the
    database is left as it is; with a presented key the users are left
    as they are and, the keys of the session collection being distinct
    (its unique index), no session of that key remains while every other
    session does; a second logout with the same request answers 200
    again and leaves the database as the first one left it. *)
Theorem logout_idempotent (req : Request) (s : Store) :
  fst (logout req s) = Sent (status_only 200)
  /\ (absent_or_empty (session_key_header req) -> snd (logout req s) = s)
  /\ (NoDup (map sessionKey (sessions s)) ->
      forall k, session_key_header req = Some k -> k <> "" ->
       users (snd (logout req s)) = users s
       /\ (forall se, In se (sessions (snd (logout req s))) <->
                      In se (sessions s) /\ sessionKey se <> k))
  /\ (NoDup (map sessionKey (sessions s)) ->
      logout req (snd (logout req s)) =
       (Sent (status_only 200), snd (logout req s))).
Proof.
  rewrite !logout_eq. cbn [fst snd].
  split; [reflexivity|]. split; [|split].
  - intros H. apply truthy_None in H. now rewrite H.
  - intros Hnd k Hk Hne.
    rewrite Hk, (truthy_nonempty _ Hne). cbn [users sessions].
    split; [reflexivity|]. intros se. split.
    + intros Hin. split; [eapply remove_first_incl; eauto|].
      eapply remove_first_key; eauto.
    + intros [Hin Hkey]. apply remove_first_keeps; [exact Hin|].
      now apply String.eqb_neq.
  - intros Hnd. f_equal.
    destruct (Js.truthy (session_key_header req)) as [k|]; [|reflexivity].
    cbn [users sessions fresh]. f_equal.
    apply remove_first_none. intros se Hin. apply String.eqb_neq.
    eapply remove_first_key; eauto.
Qed.

(** ** PATCH /user *)

Lemma patch_user_authenticated now req uid s :
  checkLoginInterceptor req s = (Next uid, s) ->
  patch_user now req s = patch_user_handler now req uid s.
Proof. intros H. unfold patch_user, bind. now rewrite H. Qed.

(** The handler on a body that passes the emptiness test. *)
Lemma patch_user_handler_eq now req uid u b s :
  find (fun v => (_id v =? uid)%N) (users s) = Some u ->
  body req = Some b ->
  Js.array_lt_one (Js.keys b) = false ->
  patch_user_handler now req uid s =
  (let d := {| doc := u; invalid := false |} in
   st <- match Js.truthy_value (Js.get b "email") with
         | Some e =>
             if ne (email u) e then
               otherUser <- UserDao_findOne (by_email e) ;;
               match otherUser with
               | Some _ => sendStatus 409
               | None => ret (assign set_email d e, true)
               end
             else ret (d, false)
         | None => ret (d, false)
         end ;;
   let st :=
     match Js.truthy_value (Js.get b "name") with
     | Some n => (assign set_name (fst st) n, true)
     | None => st
     end in
   st <- match Js.truthy_value (Js.get b "password") with
         | Some p =>
             h <- sha256Hash_of p ;;
             ret (store set_password (fst st) h, true)
         | None => ret st
         end ;;
   _ <- (if snd st then Doc_save (store set_updateAt (fst st) now)
         else ret tt) ;;
   sendStatus 200) s.
Proof.
  intros Hu Hb Hk. unfold patch_user_handler at 1.
  unfold bind at 1. unfold UserDao_findById. rewrite Hu, Hb, Hk. reflexivity.
Qed.

(** C5, amended.  An authenticated PATCH /user of a stored user: when
    the body is empty (no body, or an object without any field) the
    answer is 400; when the body has fields but neither a name, an
    e-mail nor a password (the three missing or falsy), the answer is
    400 or 200 as [Object.keys(req.body) < 1] holds or not; in both
    cases the database, hence the user, is left as it is. *)
Theorem patch_user_empty_body (now : Z) (req : Request) (uid : ObjectId)
    (u : User) (s : Store) :
  checkLoginInterceptor req s = (Next uid, s) ->
  find (fun v => (_id v =? uid)%N) (users s) = Some u ->
  (body req = None \/ body req = Some [] ->
   patch_user now req s = (Sent (status_only 400), s))
  /\ (forall b, body req = Some b ->
        falsy (Js.get b "name") -> falsy (Js.get b "email") ->
        falsy (Js.get b "password") ->
        patch_user now req s =
          (Sent (status_only
                   (if Js.array_lt_one (Js.keys b) then 400 else 200)), s)).
Proof.
  intros Hgate Hu. rewrite (patch_user_authenticated _ _ _ _ Hgate). split.
  - intros Hb. unfold patch_user_handler, bind, UserDao_findById. rewrite Hu.
    destruct Hb as [-> | ->]; reflexivity.
  - intros b Hb Hn He Hp. apply truthy_value_None in Hn, He, Hp.
    destruct (Js.array_lt_one (Js.keys b)) eqn:Hk.
    + unfold patch_user_handler, bind, UserDao_findById.
      now rewrite Hu, Hb, Hk.
    + rewrite (patch_user_handler_eq _ _ _ _ _ _ Hu Hb Hk).
      now rewrite Hn, He, Hp.
Qed.

(** C6.  An authenticated PATCH /user of a stored user whose body has
    an e-mail different from the user's, which another stored user has,
    is answered 409 and leaves the whole database as it is, whatever
    else the body has. *)
Theorem patch_user_email_conflict (now : Z) (req : Request) (uid : ObjectId)
    (u : User) (b : Js.object) (e : string) (s : Store) :
  checkLoginInterceptor req s = (Next uid, s) ->
  find (fun v => (_id v =? uid)%N) (users s) = Some u ->
  body req = Some b ->
  Js.get b "email" = Some (Js.JStr e) -> e <> "" -> email u <> e ->
  (exists v, In v (users s) /\ email v = e) ->
  patch_user now req s = (Sent (status_only 409), s).
Proof.
  intros Hgate Hu Hb He Hne Hdiff [v [Hin Hv]].
  rewrite (patch_user_authenticated _ _ _ _ Hgate).
  rewrite (patch_user_handler_eq _ _ _ _ _ _ Hu Hb)
    by (apply (body_with_field_not_empty b "email" (Js.JStr e)); tauto).
  rewrite He, (truthy_value_string _ Hne). cbn [ne].
  apply String.eqb_neq in Hdiff. rewrite Hdiff. cbn [negb].
  unfold bind, UserDao_findOne, by_email. cbn [to_String].
  destruct (find (fun v => email v =? e) (users s)) eqn:Hf; [reflexivity|].
  apply (find_none _ _ Hf) in Hin. apply String.eqb_neq in Hin. congruence.
Qed.

(** The handler on a body with a name and neither e-mail nor password. *)
Lemma patch_user_handler_name now req uid u b n s :
  find (fun v => (_id v =? uid)%N) (users s) = Some u ->
  body req = Some b ->
  Js.get b "name" = Some (Js.JStr n) -> n <> "" ->
  Js.get b "email" = None -> Js.get b "password" = None ->
  patch_user_handler now req uid s =
  (Sent (status_only 200),
   {| users := replace_by_id (set_updateAt (set_name u n) now) (users s);
      sessions := sessions s;
      fresh := fresh s |}).
Proof.
  intros Hu Hb Hn Hne He Hp.
  assert (Hid : _id u = uid).
  { apply find_some in Hu. now apply N.eqb_eq. }
  rewrite (patch_user_handler_eq _ _ _ _ _ _ Hu Hb)
    by (apply (body_with_field_not_empty b "name" (Js.JStr n)); tauto).
  rewrite He, Hp, Hn, (truthy_value_string _ Hne).
  unfold bind, ret, Doc_save, UserDao_save, assign, store.
  cbn [Js.truthy_value fst snd to_String doc invalid].
  change (_id (set_updateAt (set_name u n) now)) with (_id u).
  change (email (set_updateAt (set_name u n) now)) with (email u).
  rewrite Hid, Hu, String.eqb_refl. cbn [negb].
  now rewrite andb_false_r.
Qed.

(** C8.  An authenticated PATCH /user of a stored user whose body has a
    non-empty name and neither e-mail nor password is answered 200, and
    the stored document of the user becomes the one with the new name,
    the same e-mail and password digest, and the current time as
    last-updated timestamp. *)
Theorem patch_user_name_only (now : Z) (req : Request) (uid : ObjectId)
    (u : User) (b : Js.object) (n : string) (s : Store) :
  checkLoginInterceptor req s = (Next uid, s) ->
  find (fun v => (_id v =? uid)%N) (users s) = Some u ->
  body req = Some b ->
  Js.get b "name" = Some (Js.JStr n) -> n <> "" ->
  Js.get b "email" = None -> Js.get b "password" = None ->
  let u' := {| _id := _id u; name := n; email := email u;
               password := password u; updateAt := now |} in
  let s' := {| users := replace_by_id u' (users s);
               sessions := sessions s;
               fresh := fresh s |} in
  patch_user now req s = (Sent (status_only 200), s')
  /\ find (fun v => (_id v =? uid)%N) (users s') = Some u'.
Proof.
  intros Hgate Hu Hb Hn Hne He Hp u' s'.
  assert (Hid : _id u = uid).
  { apply find_some in Hu. now apply N.eqb_eq. }
  split.
  - rewrite (patch_user_authenticated _ _ _ _ Hgate).
    now rewrite (patch_user_handler_name _ _ _ _ _ _ _ Hu Hb Hn Hne He Hp).
  - subst s'. cbn [users]. rewrite <- Hid.
    change (_id u) with (_id u'). eapply find_replace_by_id.
    change (_id u') with (_id u). rewrite Hid. exact Hu.
Qed.

(** ** What one call does to the database *)

Lemma register_store now req s :
  snd (register now req s) = s
  \/ exists u,
       _id u = fresh s
       /\ (forall v, In v (users s) -> email v <> email u)
       /\ snd (register now req s) =
            {| users := users s ++ [u]; sessions := sessions s;
               fresh := N.succ (fresh s) |}.
Proof.
  unfold register, body_field, bind, ret, throw, sendStatus, send.
  destruct (body req) as [o|]; [|now left].
  destruct (Js.truthy_value (Js.get o "name")) as [n|]; [|now left].
  destruct (Js.truthy_value (Js.get o "email")) as [e|]; [|now left].
  destruct (Js.truthy_value (Js.get o "password")) as [p|]; [|now left].
  unfold UserDao_findOne, by_email, UserDao_create.
  destruct (to_String e) as [se|] eqn:He.
  - destruct (find (fun u => email u =? se) (users s)) eqn:Hf; [now left|].
    unfold sha256Hash_of, ret, throw.
    destruct p; try (now left).
    destruct (to_String n) as [sn|]; [|now left].
    rewrite (find_none_existsb _ _ Hf), andb_false_r.
    right. eexists. split; [|split; [|reflexivity]]; [reflexivity|].
    intros v Hin. apply (find_none _ _ Hf) in Hin. now apply String.eqb_neq.
  - destruct (query_String e) as [q|]; [|now left].
    destruct (find _ (users s)); [now left|].
    unfold sha256Hash_of, ret, throw.
    destruct p; try (now left).
    now destruct (to_String n); left.
Qed.

Lemma login_store now later req s :
  snd (login now later req s) = s
  \/ gensessionKey now <> ""
     /\ (forall se, In se (sessions s) -> sessionKey se <> gensessionKey now)
     /\ exists u,
          In u (users s)
          /\ fst (login now later req s)
             = Sent (key_response (gensessionKey now))
          /\ snd (login now later req s) =
               {| users := users s;
                  sessions := sessions s ++
                    [{| sessionKey := gensessionKey now; userId := _id u;
                        expiredAt := later + 7*24*60*60*1000 |}];
                  fresh := fresh s |}.
Proof.
  unfold login, body_field, bind, ret, throw, sendStatus, send.
  destruct (body req) as [o|]; [|now left].
  destruct (Js.truthy_value (Js.get o "email")) as [e|]; [|now left].
  destruct (Js.truthy_value (Js.get o "password")) as [p|]; [|now left].
  unfold sha256Hash_of, ret, throw.
  destruct p as [|b|neg m x|p|l|o']; try (now left).
  unfold UserDao_findOne.
  destruct (by_email e) as [q|]; [|now left].
  destruct (find _ (users s)) as [u|] eqn:Hf; [|now left].
  unfold SessionDao_create.
  destruct (gensessionKey now =? "") eqn:Hk; [now left|].
  destruct (existsb _ (sessions s)) eqn:Hx; [now left|].
  right. split; [now apply String.eqb_neq|]. split.
  - intros se Hin. apply String.eqb_neq.
    destruct (sessionKey se =? gensessionKey now) eqn:E; [|reflexivity].
    assert (existsb (fun se => sessionKey se =? gensessionKey now)
                    (sessions s) = true)
      by (apply existsb_exists; eauto).
    congruence.
  - exists u. split; [now apply find_some in Hf|]. now split.
Qed.

Lemma get_user_store req s : snd (get_user req s) = s.
Proof.
  unfold get_user, bind. rewrite checkLoginInterceptor_eq.
  destruct (Js.truthy (session_key_header req)); [|reflexivity].
  destruct (find _ (sessions s)); [|reflexivity].
  unfold get_user_handler, bind, UserDao_findById.
  now destruct (find _ (users s)).
Qed.

Lemma UserDao_save_store u' s :
  snd (UserDao_save u' s) = s
  \/ snd (UserDao_save u' s) =
       {| users := replace_by_id u' (users s);
          sessions := sessions s; fresh := fresh s |}.
Proof. unfold UserDao_save. destruct (_ && _); [now left | now right]. Qed.

(** What the e-mail step of PATCH /user leaves: the document of [u]
    with the e-mail of [u] or one that no stored user has, or nothing
    when a response is sent or the lookup is refused. *)
Lemma patch_email_step (u : User) (b : Js.object) (s : Store) :
  let d := {| doc := u; invalid := false |} in
  let step :=
    match Js.truthy_value (Js.get b "email") with
    | Some e =>
        if ne (email u) e then
          otherUser <- UserDao_findOne (by_email e) ;;
          match otherUser with
          | Some _ => sendStatus 409
          | None => ret (assign set_email d e, true)
          end
        else ret (d, false)
    | None => ret (d, false)
    end in
  snd (step s) = s
  /\ forall st, fst (step s) = Next st ->
       _id (doc (fst st)) = _id u
       /\ (email (doc (fst st)) = email u
           \/ forall v, In v (users s) -> email v <> email (doc (fst st))).
Proof.
  intros d step. subst step d.
  destruct (Js.truthy_value (Js.get b "email")) as [e|];
    [|split; [reflexivity | intros st [= <-]; cbn; auto]].
  destruct (ne (email u) e);
    [|split; [reflexivity | intros st [= <-]; cbn; auto]].
  unfold bind, UserDao_findOne, by_email, assign, ret, sendStatus, send.
  destruct (to_String e) as [se|] eqn:He.
  - destruct (find (fun v => email v =? se) (users s)) eqn:Hf;
      [split; [reflexivity | discriminate]|].
    split; [reflexivity|]. intros st [= <-]. cbn. split; [reflexivity|].
    right. intros v Hin. apply (find_none _ _ Hf) in Hin.
    now apply String.eqb_neq.
  - destruct (query_String e) as [q|]; [|split; [reflexivity | discriminate]].
    destruct (find _ (users s));
      split; try reflexivity; try discriminate.
    intros st [= <-]. cbn. auto.
Qed.

(** What the rest of PATCH /user does to a document left by the e-mail
    step. *)
Lemma patch_rest (now : Z) (u : User) (b : Js.object) (st : Doc * bool)
    (s : Store) :
  _id (doc (fst st)) = _id u ->
  let rest : Handler unit :=
    (let st :=
       match Js.truthy_value (Js.get b "name") with
       | Some n => (assign set_name (fst st) n, true)
       | None => st
       end in
     st <- match Js.truthy_value (Js.get b "password") with
           | Some p =>
               h <- sha256Hash_of p ;;
               ret (store set_password (fst st) h, true)
           | None => ret st
           end ;;
     _ <- (if snd st then Doc_save (store set_updateAt (fst st) now)
           else ret tt) ;;
     sendStatus 200) in
  (rest s = (Sent (status_only 200), s)
   \/ (exists f, rest s = (Thrown f, s))
   \/ exists u',
        _id u' = _id u /\ email u' = email (doc (fst st))
        /\ (rest s = (Thrown DuplicateKey, s)
            \/ rest s =
               (Sent (status_only 200),
                {| users := replace_by_id u' (users s);
                   sessions := sessions s; fresh := fresh s |}))).
Proof.
  intros Hid rest. subst rest. cbv zeta.
  unfold assign, store, sha256Hash_of, Doc_save, UserDao_save,
    bind, ret, throw, sendStatus, send.
  destruct st as [[d i] upd]. cbn [fst snd doc invalid] in *.
  destruct (Js.truthy_value (Js.get b "name")) as [n|];
    [destruct (to_String n) as [sn|]|];
  (destruct (Js.truthy_value (Js.get b "password")) as [p|];
    [destruct p as [|bb|neg m x|p|l|o']|]);
  cbn [fst snd doc invalid];
  try (right; left; eexists; reflexivity);
  try (destruct upd; [|now left]);
  try (destruct i; [right; left; eexists; reflexivity|]);
  right; right;
  match goal with
  | |- context [replace_by_id ?x _] =>
      exists x; split; [exact Hid|]; split; [reflexivity|]
  end;
  (match goal with
   | |- context [if ?c then _ else _] => destruct c
   end; [now left | now right]).
Qed.

Lemma bind_eq {A B} (c : Handler A) (k : A -> Handler B) s :
  bind c k s =
  match c s with
  | (Next a, s') => k a s'
  | (Sent r, s') => (Sent r, s')
  | (Thrown f, s') => (Thrown f, s')
  end.
Proof. reflexivity. Qed.

(** Every way PATCH /user ends behind the interceptor: with a status
    (or thrown) and the database as it was, or with 200 and the
    document of the user replaced by one of the same id, with the same
    e-mail or with one that no stored user had. *)
Lemma patch_user_handler_cases now req uid s :
  ((exists code, In code [200; 400; 401; 409]%nat
                 /\ patch_user_handler now req uid s
                    = (Sent (status_only code), s))
   \/ exists f, patch_user_handler now req uid s = (Thrown f, s))
  \/ exists u u',
       find (fun v => (_id v =? uid)%N) (users s) = Some u
       /\ _id u' = _id u
       /\ (email u' = email u
           \/ forall v, In v (users s) -> email v <> email u')
       /\ patch_user_handler now req uid s =
            (Sent (status_only 200),
             {| users := replace_by_id u' (users s);
                sessions := sessions s; fresh := fresh s |}).
Proof.
  destruct (find (fun v => (_id v =? uid)%N) (users s)) as [u|] eqn:Hu.
  2:{ left. left. exists 401%nat. split; [simpl; tauto|].
      unfold patch_user_handler, bind, UserDao_findById. now rewrite Hu. }
  destruct (body req) as [b|] eqn:Hb.
  2:{ left. left. exists 400%nat. split; [simpl; tauto|].
      unfold patch_user_handler, bind, UserDao_findById. now rewrite Hu, Hb. }
  destruct (Js.array_lt_one (Js.keys b)) eqn:Hk.
  { left. left. exists 400%nat. split; [simpl; tauto|].
    unfold patch_user_handler, bind, UserDao_findById.
    now rewrite Hu, Hb, Hk. }
  rewrite (patch_user_handler_eq _ _ _ _ _ _ Hu Hb Hk). cbv zeta.
  destruct (patch_email_step u b s) as [Hs Hst]. cbv zeta in Hs, Hst.
  rewrite bind_eq.
  match goal with
  | |- context [match ?step s with _ => _ end] =>
      destruct (step s) as [[st|r|f] s0] eqn:Hstep
  end; cbn [snd fst] in Hs, Hst; subst s0.
  - destruct (Hst st eq_refl) as [Hid Hem].
    destruct (patch_rest now u b st s Hid) as [H|[[f H]|[u' [Hid' [Hem' H]]]]];
      cbv zeta in H.
    + left. left. exists 200%nat. split; [simpl; tauto | exact H].
    + left. right. exists f. exact H.
    + destruct H as [H|H].
      * left. right. exists DuplicateKey. exact H.
      * right. exists u, u'. split; [reflexivity|]. split; [exact Hid'|].
        split; [rewrite Hem'; exact Hem | exact H].
  - left. left.
    assert (r = status_only 409).
    { revert Hstep.
      destruct (Js.truthy_value (Js.get b "email")) as [e|]; [|discriminate].
      destruct (ne (email u) e); [|discriminate].
      unfold bind, UserDao_findOne, sendStatus, send, ret.
      destruct (by_email e) as [q|]; [|discriminate].
      destruct (find q (users s)); [|discriminate].
      intros H0. inversion H0. reflexivity. }
    subst r. exists 409%nat. split; [simpl; tauto | reflexivity].
  - left. right. now exists f.
Qed.

Lemma patch_user_handler_store now req uid s :
  snd (patch_user_handler now req uid s) = s
  \/ exists u u',
       find (fun v => (_id v =? uid)%N) (users s) = Some u
       /\ _id u' = _id u
       /\ (email u' = email u
           \/ forall v, In v (users s) -> email v <> email u')
       /\ snd (patch_user_handler now req uid s) =
            {| users := replace_by_id u' (users s);
               sessions := sessions s; fresh := fresh s |}.
Proof.
  destruct (patch_user_handler_cases now req uid s)
    as [[[code [_ H]]|[f H]]|[u [u' [Hu [Hid [Hem H]]]]]]; rewrite H;
    [now left | now left |].
  right. now exists u, u'.
Qed.

(** ** The database stays well formed *)

Lemma patch_user_store now req s :
  snd (patch_user now req s) = s
  \/ exists uid, snd (patch_user now req s)
                 = snd (patch_user_handler now req uid s).
Proof.
  unfold patch_user, bind. rewrite checkLoginInterceptor_eq.
  destruct (Js.truthy (session_key_header req)); [|now left].
  destruct (find _ (sessions s)) as [se|]; [|now left].
  right. now exists (userId se).
Qed.

Lemma serve_wf c s : wf s -> wf (snd (serve c s)).
Proof.
  intros [Hids Hfresh Hems Hkeys Hne]. unfold serve.
  destruct (route c).
  - destruct (register_store (clock c) (request c) s) as [->|[u [Hid [Hem ->]]]];
      [now constructor|].
    constructor; cbn [users sessions fresh]; try assumption.
    + rewrite map_app. apply NoDup_snoc; [exact Hids|]. cbn [map].
      intros Hin. apply in_map_iff in Hin. destruct Hin as [v [Hv Hin]].
      rewrite Forall_forall in Hfresh. specialize (Hfresh _ Hin). lia.
    + apply Forall_app. split.
      * eapply Forall_impl; [|exact Hfresh]. cbv beta. intros; lia.
      * constructor; [lia | constructor].
    + rewrite map_app. apply NoDup_snoc; [exact Hems|]. cbn [map].
      intros Hin. apply in_map_iff in Hin. destruct Hin as [v [Hv Hin]].
      now apply (Hem v).
  - destruct (login_store (clock c) (clock_later c) (request c) s)
      as [->|[Hk [Hnew [u [_ [_ ->]]]]]]; [now constructor|].
    constructor; cbn [users sessions fresh]; try assumption.
    + rewrite map_app. apply NoDup_snoc; [exact Hkeys|]. cbn [map sessionKey].
      intros Hin. apply in_map_iff in Hin. destruct Hin as [v [Hv Hin]].
      now apply (Hnew v).
    + apply Forall_app. split; [exact Hne|]. now repeat constructor.
  - rewrite logout_eq. cbn [snd].
    destruct (Js.truthy (session_key_header (request c))); [|now constructor].
    constructor; cbn [users sessions fresh]; try assumption.
    + now apply remove_first_NoDup.
    + rewrite Forall_forall in *. intros se Hin. apply Hne.
      eapply remove_first_incl; eauto.
  - rewrite get_user_store. now constructor.
  - destruct (patch_user_store (clock c) (request c) s) as [->|[uid ->]];
      [now constructor|].
    destruct (patch_user_handler_store (clock c) (request c) uid s)
      as [->|[u [u' [Hu [Hid [Hem ->]]]]]]; [now constructor|].
    assert (Huid : uid = _id u').
    { apply find_some in Hu. destruct Hu as [_ Hu]. apply N.eqb_eq in Hu.
      congruence. }
    subst uid.
    constructor; cbn [users sessions fresh]; try assumption.
    + now rewrite replace_by_id_ids.
    + rewrite Forall_forall in *. intros v Hin.
      apply replace_by_id_in in Hin. destruct Hin as [->|Hin]; [|auto].
      rewrite Hid. apply Hfresh. now apply find_some in Hu.
    + eapply replace_by_id_emails; eauto.
Qed.

Lemma run_wf cs : forall s, wf s -> wf (run cs s).
Proof.
  induction cs as [|c cs IH]; simpl; intros s H; [exact H|].
  apply IH. now apply serve_wf.
Qed.

Lemma empty_store_wf : wf empty_store.
Proof. constructor; simpl; constructor. Qed.

(** C9.  In every database that sequential calls of the five routes
    lead to from the empty database, no two users have the same e-mail:
    the lookups of Register and of UpdateProfile are what keeps it so,
    whether or not the collection has an index. *)
Theorem email_uniqueness_invariant (cs : list Call) :
  NoDup (map email (users (run cs empty_store))).
Proof. apply wf_emails. apply run_wf. apply empty_store_wf. Qed.

(** ** Sessions along a sequence of calls *)

Lemma serve_sessions c s :
  sessions (snd (serve c s)) = sessions s
  \/ (route c = POST_login
      /\ exists uid t,
           sessions (snd (serve c s)) =
           (sessions s ++ [{| sessionKey := gensessionKey (clock c);
                              userId := uid; expiredAt := t |}])%list)
  \/ (route c = POST_logout
      /\ exists k,
           Js.truthy (session_key_header (request c)) = Some k
           /\ sessions (snd (serve c s)) =
              remove_first (fun se => sessionKey se =? k) (sessions s)).
Proof.
  unfold serve. destruct (route c) eqn:Hr.
  - left.
    destruct (register_store (clock c) (request c) s) as [->|[u [_ [_ ->]]]];
      reflexivity.
  - destruct (login_store (clock c) (clock_later c) (request c) s)
      as [->|[_ [_ [u [_ [_ ->]]]]]]; [now left|].
    right; left. split; [reflexivity|]. now eexists _, _.
  - rewrite logout_eq. cbn [snd].
    destruct (Js.truthy (session_key_header (request c))) as [k|];
      [|now left].
    right; right. split; [reflexivity|]. now exists k.
  - left. now rewrite get_user_store.
  - left.
    destruct (patch_user_store (clock c) (request c) s) as [->|[uid ->]];
      [reflexivity|].
    destruct (patch_user_handler_store (clock c) (request c) uid s)
      as [->|[u [u' [_ [_ [_ ->]]]]]]; reflexivity.
Qed.

Lemma serve_keeps_session T c s se :
  logs_out T c = false -> In se (sessions s) -> sessionKey se = T ->
  In se (sessions (snd (serve c s))).
Proof.
  intros Hc Hin Hkey.
  destruct (serve_sessions c s) as [->|[[_ [uid [t ->]]]|[Hr [k [Hk ->]]]]].
  - exact Hin.
  - apply in_or_app. now left.
  - apply remove_first_keeps; [exact Hin|].
    apply truthy_Some in Hk. destruct Hk as [Hk _].
    unfold logs_out in Hc. rewrite Hr, Hk in Hc. now rewrite Hkey, String.eqb_sym.
Qed.

Lemma serve_no_session T c s :
  generates T c = false ->
  (forall se, In se (sessions s) -> sessionKey se <> T) ->
  forall se, In se (sessions (snd (serve c s))) -> sessionKey se <> T.
Proof.
  intros Hc Hnone se.
  destruct (serve_sessions c s) as [->|[[Hr [uid [t ->]]]|[_ [k [_ ->]]]]].
  - apply Hnone.
  - intros Hin. apply in_app_or in Hin. destruct Hin as [Hin|[<-|[]]];
      [now apply Hnone|].
    unfold generates in Hc. rewrite Hr in Hc. now apply String.eqb_neq.
  - intros Hin. apply Hnone. eapply remove_first_incl; eauto.
Qed.

Lemma run_keeps_session T se cs :
  Forall (fun c => logs_out T c = false) cs ->
  forall s, In se (sessions s) -> sessionKey se = T ->
            In se (sessions (run cs s)).
Proof.
  induction 1 as [|c cs Hc _ IH]; simpl; intros s Hin Hkey; [exact Hin|].
  apply IH; [|exact Hkey]. now apply serve_keeps_session with (T := T).
Qed.

Lemma run_no_session T cs :
  Forall (fun c => generates T c = false) cs ->
  forall s, (forall se, In se (sessions s) -> sessionKey se <> T) ->
            forall se, In se (sessions (run cs s)) -> sessionKey se <> T.
Proof.
  induction 1 as [|c cs Hc _ IH]; simpl; intros s Hnone; [exact Hnone|].
  apply IH. now apply serve_no_session.
Qed.


Lemma accepted_inv q k uid s :
  session_key_header q = Some k ->
  checkLoginInterceptor q s = (Next uid, s) ->
  k <> ""
  /\ exists se, find (fun se => sessionKey se =? k) (sessions s) = Some se
                /\ userId se = uid.
Proof.
  intros Hq H. rewrite checkLoginInterceptor_eq, Hq in H.
  destruct (Js.truthy (Some k)) as [k'|] eqn:Ht; [|discriminate].
  apply truthy_Some in Ht. destruct Ht as [Ht Hne]. inversion Ht; subst k'.
  split; [exact Hne|].
  destruct (find _ (sessions s)) as [se|]; [|discriminate].
  exists se. split; [reflexivity|]. now inversion H.
Qed.

Lemma serve_keeps_accepted k c s q uid :
  logs_out k c = false ->
  session_key_header q = Some k ->
  checkLoginInterceptor q s = (Next uid, s) ->
  checkLoginInterceptor q (snd (serve c s)) = (Next uid, snd (serve c s)).
Proof.
  intros Hc Hq H.
  destruct (accepted_inv _ _ _ _ Hq H) as [Hne [se [Hf Hu]]].
  rewrite checkLoginInterceptor_eq, Hq, (truthy_nonempty _ Hne).
  destruct (serve_sessions c s) as [->|[[_ [uid' [t ->]]]|[Hr [k' [Hk ->]]]]].
  - now rewrite Hf, Hu.
  - now rewrite (find_app_some _ _ _ _ Hf), Hu.
  - apply truthy_Some in Hk. destruct Hk as [Hk _].
    unfold logs_out in Hc. rewrite Hr, Hk in Hc. apply String.eqb_neq in Hc.
    rewrite find_remove_first_other by congruence. now rewrite Hf, Hu.
Qed.

Lemma run_keeps_accepted k q uid cs :
  Forall (fun c => logs_out k c = false) cs ->
  session_key_header q = Some k ->
  forall s, checkLoginInterceptor q s = (Next uid, s) ->
            checkLoginInterceptor q (run cs s) = (Next uid, run cs s).
Proof.
  intros Hcs Hq.
  induction Hcs as [|c cs Hc _ IH]; simpl; intros s H; [exact H|].
  apply IH. now apply serve_keeps_accepted with (k := k).
Qed.

(** A key has at most one session once it had at most one: the
    unique index lets a login add a session only of a key that has
    none. *)
Lemma serve_one_session T c s :
  (length (sessions_of T s) <= 1)%nat ->
  (length (sessions_of T (snd (serve c s))) <= 1)%nat.
Proof.
  unfold sessions_of. intros H. unfold serve. destruct (route c).
  - destruct (register_store (clock c) (request c) s) as [->|[u [_ [_ ->]]]];
      exact H.
  - destruct (login_store (clock c) (clock_later c) (request c) s)
      as [->|[_ [Hnew [u [_ [_ ->]]]]]]; [exact H|].
    cbn [sessions]. rewrite filter_app, length_app. cbn [filter sessionKey].
    destruct (gensessionKey (clock c) =? T) eqn:E; [|simpl; lia].
    apply String.eqb_eq in E. rewrite <- E.
    assert (H0 : length (filter (fun se => sessionKey se =? gensessionKey (clock c))
                                (sessions s)) = 0%nat).
    { apply filter_nil_iff. intros se Hin. apply String.eqb_neq. auto. }
    rewrite H0. simpl. lia.
  - rewrite logout_eq. cbn [snd].
    destruct (Js.truthy (session_key_header (request c))); [|exact H].
    cbn [sessions]. etransitivity; [apply filter_remove_first_le | exact H].
  - now rewrite get_user_store.
  - destruct (patch_user_store (clock c) (request c) s) as [->|[uid ->]];
      [exact H|].
    destruct (patch_user_handler_store (clock c) (request c) uid s)
      as [->|[u [u' [_ [_ [_ ->]]]]]]; exact H.
Qed.

Lemma run_one_session T cs :
  forall s,
    (length (sessions_of T s) <= 1)%nat ->
    (length (sessions_of T (run cs s)) <= 1)%nat.
Proof.
  induction cs as [|c cs IH]; simpl; intros s H; [exact H|].
  apply IH. now apply serve_one_session.
Qed.

(** A call that is not answered with the key [T] adds no session of
    the key [T]. *)
Lemma serve_no_session_unless_returned T c s :
  fst (serve c s) <> Sent (key_response T) ->
  (forall se, In se (sessions s) -> sessionKey se <> T) ->
  forall se, In se (sessions (snd (serve c s))) -> sessionKey se <> T.
Proof.
  intros Hr Hnone se. unfold serve in *. destruct (route c).
  - destruct (register_store (clock c) (request c) s) as [->|[u [_ [_ ->]]]];
      apply Hnone.
  - destruct (login_store (clock c) (clock_later c) (request c) s)
      as [->|[_ [_ [u [_ [Hresp ->]]]]]]; [apply Hnone|].
    cbn [sessions]. intros Hin. apply in_app_or in Hin.
    destruct Hin as [Hin|[<-|[]]]; [now apply Hnone|].
    cbn [sessionKey]. intros HT. apply Hr. now rewrite Hresp, HT.
  - rewrite logout_eq. cbn [snd].
    destruct (Js.truthy (session_key_header (request c))); [|apply Hnone].
    cbn [sessions]. intros Hin. apply Hnone. eapply remove_first_incl; eauto.
  - rewrite get_user_store. apply Hnone.
  - destruct (patch_user_store (clock c) (request c) s) as [->|[uid ->]];
      [apply Hnone|].
    destruct (patch_user_handler_store (clock c) (request c) uid s)
      as [->|[u [u' [_ [_ [_ ->]]]]]]; apply Hnone.
Qed.

Lemma run_no_session_unless_returned T cs :
  forall s,
    Forall (fun r => r <> Some (key_response T)) (responses cs s) ->
    (forall se, In se (sessions s) -> sessionKey se <> T) ->
    forall se, In se (sessions (run cs s)) -> sessionKey se <> T.
Proof.
  induction cs as [|c cs IH]; simpl; intros s Hrs Hnone; [exact Hnone|].
  destruct (serve c s) as [r s'] eqn:Hserve. cbn [snd].
  inversion Hrs as [|? ? Hr Hrs']; subst.
  apply IH; [exact Hrs'|].
  change s' with (snd (r, s')). rewrite <- Hserve.
  apply serve_no_session_unless_returned; [|exact Hnone].
  rewrite Hserve. cbn [fst]. intros ->. now apply Hr.
Qed.

(** C4, amended.  A key [T] returned by a successful login is the key
    of the user the login found by its credentials: the interceptor
    goes on with the id of that user for every request that presents
    [T], after any calls none of which is a logout presenting [T].
    After a logout presenting [T], and any further calls none of which
    is answered with the key [T] again, a request that presents [T] is
    answered 401. *)
Theorem session_token_lifecycle (now later : Z) (req : Request)
    (s s1 : Store) (T : string) :
  login now later req s =
    (Sent {| status := 200; payload := LoginResponse T |}, s1) ->
  exists o e p q u,
    body req = Some o
    /\ Js.get o "email" = Some e
    /\ Js.get o "password" = Some (Js.JStr p)
    /\ by_email e = Some q
    /\ find (fun v => q v && (password v =? sha256Hash p)) (users s) = Some u
    /\ password u = sha256Hash p
    /\ (forall e0, e = Js.JStr e0 -> email u = e0)
    /\ (forall cs rq,
         Forall (fun c => logs_out T c = false) cs ->
         session_key_header rq = Some T ->
         checkLoginInterceptor rq (run cs s1) = (Next (_id u), run cs s1))
    /\ (forall cs1 qo cs2 rq,
         session_key_header qo = Some T ->
         let s2 := snd (logout qo (run cs1 s1)) in
         Forall (fun r => r <> Some (key_response T)) (responses cs2 s2) ->
         session_key_header rq = Some T ->
         checkLoginInterceptor rq (run cs2 s2)
         = (Sent unauthenticated, run cs2 s2)).
Proof.
  intros Hlogin.
  destruct (login_key_inv _ _ _ _ _ _ Hlogin)
    as [HT [Hne [Hfresh [o [e [p [q [u [Hb [He [Hp [Hq [Hf Hs1]]]]]]]]]]]]];
    [discriminate|].
  assert (HT' : T = gensessionKey now) by now inversion HT.
  clear HT. subst T.
  exists o, e, p, q, u. repeat (split; [assumption|]).
  pose proof (find_some _ _ Hf) as [Hin Hcred].
  apply andb_true_iff in Hcred. destruct Hcred as [Hqe Hpw].
  apply String.eqb_eq in Hpw.
  split; [exact Hpw|]. split.
  { intros e0 ->. unfold by_email in Hq. cbn [to_String] in Hq.
    inversion Hq; subst q. now apply String.eqb_eq in Hqe. }
  set (se := {| sessionKey := gensessionKey now; userId := _id u;
                expiredAt := later + 7*24*60*60*1000 |}) in *.
  assert (Hnone : find (fun x => sessionKey x =? gensessionKey now)
                       (sessions s) = None).
  { apply find_none_iff. intros x Hx. apply String.eqb_neq. auto. }
  split.
  - intros cs rq Hcs Hrq.
    apply run_keeps_accepted with (k := gensessionKey now);
      [exact Hcs | exact Hrq |].
    rewrite checkLoginInterceptor_eq, Hrq, (truthy_nonempty _ Hne), Hs1.
    cbn [sessions]. rewrite (find_app_none _ _ _ Hnone). cbn [find se sessionKey].
    now rewrite String.eqb_refl.
  - intros cs1 qo cs2 rq Hqo s2 Hcs2 Hrq.
    assert (Hone : (length (sessions_of (gensessionKey now) (run cs1 s1))
                    <= 1)%nat).
    { apply run_one_session. unfold sessions_of. rewrite Hs1. cbn [sessions].
      rewrite filter_app, length_app.
      assert (H0 : length (filter (fun x => sessionKey x =? gensessionKey now)
                                  (sessions s)) = 0%nat)
        by (apply filter_nil_iff; exact (find_none _ _ Hnone)).
      rewrite H0. cbn [filter se sessionKey].
      rewrite String.eqb_refl. simpl. lia. }
    assert (Hgone : forall x, In x (sessions s2) ->
                              sessionKey x <> gensessionKey now).
    { intros x Hx. apply String.eqb_neq. revert x Hx.
      apply filter_nil_iff. subst s2. rewrite logout_eq. cbn [snd].
      rewrite Hqo, (truthy_nonempty _ Hne). cbn [sessions].
      rewrite filter_remove_first_same. unfold sessions_of in Hone. lia. }
    assert (Hf' : find (fun x => sessionKey x =? gensessionKey now)
                       (sessions (run cs2 s2)) = None).
    { apply find_none_iff. intros x Hx. apply String.eqb_neq.
      revert x Hx. now apply run_no_session_unless_returned. }
    now rewrite checkLoginInterceptor_eq, Hrq, (truthy_nonempty _ Hne), Hf'.
Qed.

(** C10.  The generated key is the digest of the decimal clock value
    and of nothing else.  After a successful login that returned [T],
    and any calls none of which is a logout presenting [T], a login
    served at the same clock value by credentials of a stored user
    generates [T] again, the key of a stored session; the unique index
    refuses it, and the login ends without a response and without a new
    session. *)
Theorem same_millisecond_login_collides (now later1 later2 : Z)
    (req1 req2 : Request) (s s1 : Store) (T : string) (cs : list Call)
    (o2 : Js.object) (e2 p2 : string) (u2 : User) :
  login now later1 req1 s =
    (Sent {| status := 200; payload := LoginResponse T |}, s1) ->
  Forall (fun c => logs_out T c = false) cs ->
  body req2 = Some o2 ->
  Js.get o2 "email" = Some (Js.JStr e2) -> e2 <> "" ->
  Js.get o2 "password" = Some (Js.JStr p2) -> p2 <> "" ->
  In u2 (users (run cs s1)) -> email u2 = e2 -> password u2 = sha256Hash p2 ->
  T = sha256Hash (Date_toString now)
  /\ gensessionKey now = T
  /\ (exists se, In se (sessions (run cs s1))
                 /\ sessionKey se = gensessionKey now)
  /\ login now later2 req2 (run cs s1) = (Thrown DuplicateKey, run cs s1).
Proof.
  intros Hlogin Hcs Hb2 He2 Hne2 Hp2 Hnp2 Hin2 Hem2 Hpw2.
  destruct (login_key_inv _ _ _ _ _ _ Hlogin)
    as [HT [Hne [_ [o [e [p [q [u [_ [_ [_ [_ [_ Hs1]]]]]]]]]]]]];
    [discriminate|].
  assert (HT' : T = gensessionKey now) by now inversion HT.
  set (se := {| sessionKey := gensessionKey now; userId := _id u;
                expiredAt := later1 + 7*24*60*60*1000 |}) in *.
  assert (Hin' : In se (sessions (run cs s1))).
  { apply run_keeps_session with (T := T); [exact Hcs | | now rewrite HT'].
    rewrite Hs1. cbn [sessions]. apply in_or_app. right. now left. }
  split; [exact HT'|]. split; [now symmetry|]. split; [now exists se|].
  rewrite (login_eq now later2 req2 o2 e2 p2) by assumption.
  destruct (find (fun u => (email u =? e2) && (password u =? sha256Hash p2))
                 (users (run cs s1))) eqn:Hf.
  - apply String.eqb_neq in Hne. rewrite Hne.
    assert (Hx : existsb (fun se => sessionKey se =? gensessionKey now)
                         (sessions (run cs s1)) = true).
    { apply existsb_exists. exists se. split; [exact Hin'|].
      now apply String.eqb_eq. }
    now rewrite Hx.
  - apply (find_none _ _ Hf) in Hin2.
    rewrite Hem2, Hpw2, !String.eqb_refl in Hin2. discriminate.
Qed.

(** * Further properties of the router *)

(** ** GET /user *)

Lemma get_user_eq req s :
  get_user req s =
  match checkLoginInterceptor req s with
  | (Next uid, _) =>
      match find (fun u => (_id u =? uid)%N) (users s) with
      | Some u =>
          (Sent {| status := 200;
                   payload := UserInfo (name u) (email u) (updateAt u) |}, s)
      | None => (Sent unauthenticated, s)
      end
  | (Sent r, _) => (Sent r, s)
  | (Thrown f, _) => (Thrown f, s)
  end.
Proof.
  unfold get_user, bind. rewrite checkLoginInterceptor_eq.
  destruct (Js.truthy (session_key_header req)); [|reflexivity].
  destruct (find _ (sessions s)) as [se|]; [|reflexivity].
  unfold get_user_handler, bind, UserDao_findById.
  now destruct (find _ (users s)).
Qed.

(** X1.  GET /user never changes the database.  It answers 401 when
    the interceptor does, and also when the interceptor lets the request
    through but no stored user has the id of the session; otherwise,
    the ids of the users being distinct, it answers 200 with the name,
    the e-mail and the last-updated timestamp of the user the session
    belongs to. *)
Theorem get_user_contract (req : Request) (s : Store) :
  snd (get_user req s) = s
  /\ (checkLoginInterceptor req s = (Sent unauthenticated, s) ->
      get_user req s = (Sent unauthenticated, s))
  /\ (forall uid, checkLoginInterceptor req s = (Next uid, s) ->
        (forall u, In u (users s) -> _id u <> uid) ->
        get_user req s = (Sent unauthenticated, s))
  /\ (forall u, checkLoginInterceptor req s = (Next (_id u), s) ->
        NoDup (map _id (users s)) -> In u (users s) ->
        get_user req s =
          (Sent {| status := 200;
                   payload := UserInfo (name u) (email u) (updateAt u) |}, s)).
Proof.
  split; [apply get_user_store|]. rewrite get_user_eq.
  split; [|split].
  - now intros ->.
  - intros uid -> Hnone.
    assert (Hf : find (fun u => (_id u =? uid)%N) (users s) = None).
    { apply find_none_iff. intros u Hin. apply N.eqb_neq. auto. }
    now rewrite Hf.
  - intros u -> Hnd Hin. now rewrite (find_unique_id _ _ Hnd Hin).
Qed.

(** ** PATCH /user without a session or without the user *)

(** X2.  PATCH /user reads neither the body nor the users when the
    interceptor answers 401: the answer is 401 and the database is as it
    was.  The same holds when the request is let through but no stored
    user has the id of the session, whatever the body asks for. *)
Theorem patch_user_unauthenticated (now : Z) (req : Request) (s : Store) :
  (checkLoginInterceptor req s = (Sent unauthenticated, s) ->
   patch_user now req s = (Sent unauthenticated, s))
  /\ (forall uid, checkLoginInterceptor req s = (Next uid, s) ->
        (forall u, In u (users s) -> _id u <> uid) ->
        patch_user now req s = (Sent unauthenticated, s)).
Proof.
  split.
  - intros H. unfold patch_user, bind. now rewrite H.
  - intros uid H Hnone. rewrite (patch_user_authenticated _ _ _ _ H).
    unfold patch_user_handler, bind, UserDao_findById.
    assert (Hf : find (fun u => (_id u =? uid)%N) (users s) = None).
    { apply find_none_iff. intros u Hin. apply N.eqb_neq. auto. }
    now rewrite Hf.
Qed.

(** ** POST /login *)

(** X3.  A login with a missing or falsy e-mail or password is
    answered 400 before any lookup: the database is as it was, and no
    session is created even when the other field is right. *)
Theorem login_bad_request (now later : Z) (req : Request) (o : Js.object)
    (s : Store) :
  body req = Some o ->
  falsy (Js.get o "email") \/ falsy (Js.get o "password") ->
  login now later req s = (Sent (status_only 400), s).
Proof.
  intros Hb H. unfold login, body_field, bind. rewrite Hb. cbn [ret].
  rewrite <- !truthy_value_None in H. destruct H as [H|H]; rewrite H.
  - reflexivity.
  - now destruct (Js.truthy_value (Js.get o "email")).
Qed.

(** X4.  A login with the e-mail and the password of a stored user,
    the e-mails being distinct, whose generated key is not empty and
    not yet stored: the answer is 200 with the key generated from the
    first reading of the clock; the users are as they were, the
    sessions that were stored still are, and exactly one session is
    added, of that key, of that user, with an expiry seven days after
    the second reading of the clock, which is when the session is
    built (the expiry being a valid date). *)
Theorem login_success (now later : Z) (req : Request) (o : Js.object)
    (p : string) (u : User) (s : Store) :
  body req = Some o ->
  Js.get o "email" = Some (Js.JStr (email u)) -> email u <> "" ->
  Js.get o "password" = Some (Js.JStr p) -> p <> "" ->
  NoDup (map email (users s)) -> In u (users s) ->
  password u = sha256Hash p ->
  gensessionKey now <> "" ->
  (forall se, In se (sessions s) -> sessionKey se <> gensessionKey now) ->
  (- 8640000000000000 <= later + 604800000 <= 8640000000000000)%Z ->
  login now later req s =
    (Sent {| status := 200; payload := LoginResponse (gensessionKey now) |},
     {| users := users s;
        sessions := sessions s ++
          [{| sessionKey := gensessionKey now; userId := _id u;
              expiredAt := later + 604800000 |}];
        fresh := fresh s |}).
Proof.
  intros Hb He Hne Hp Hnp Hnd Hin Hpw Hk Hfresh _.
  rewrite (login_eq now later req o (email u) p) by assumption.
  rewrite <- Hpw, (find_unique_credentials _ _ Hnd Hin).
  apply String.eqb_neq in Hk. rewrite Hk.
  assert (Hx : existsb (fun se => sessionKey se =? gensessionKey now)
                       (sessions s) = false).
  { apply find_none_existsb. apply find_none_iff. intros se Hse.
    apply String.eqb_neq. auto. }
  now rewrite Hx.
Qed.
(** ** Keys along a sequence of calls *)

(** X5.  Only a logout that presents a key ends its validity: a
    request that the interceptor lets through with a key is let through
    with the same user id after any calls none of which is a logout
    presenting that key; logins, also of the same user, registrations,
    profile updates and logouts of other keys leave it valid. *)
Theorem accepted_key_survives (k : string) (q : Request) (uid : ObjectId)
    (cs : list Call) (s : Store) :
  Forall (fun c => logs_out k c = false) cs ->
  session_key_header q = Some k ->
  checkLoginInterceptor q s = (Next uid, s) ->
  checkLoginInterceptor q (run cs s) = (Next uid, run cs s).
Proof.
  intros Hcs Hq H. now apply run_keeps_accepted with (k := k).
Qed.

(** X6.  Only a login makes a key valid: a request that is answered
    401 with some key is answered 401 with that key after any calls
    none of which is a login that generates it. *)
Theorem rejected_key_stays_rejected (k : string) (q : Request)
    (cs : list Call) (s : Store) :
  Forall (fun c => generates k c = false) cs ->
  session_key_header q = Some k ->
  checkLoginInterceptor q s = (Sent unauthenticated, s) ->
  checkLoginInterceptor q (run cs s) = (Sent unauthenticated, run cs s).
Proof.
  intros Hcs Hq H. rewrite checkLoginInterceptor_eq, Hq in *.
  destruct (Js.truthy (Some k)) as [k'|] eqn:Ht; [|reflexivity].
  apply truthy_Some in Ht. destruct Ht as [Ht _]. inversion Ht; subst k'.
  destruct (find _ (sessions s)) eqn:Hf; [discriminate|].
  assert (Hf' : find (fun se => sessionKey se =? k) (sessions (run cs s))
                = None).
  { apply find_none_iff. intros se Hin. apply String.eqb_neq.
    revert se Hin. apply run_no_session; [exact Hcs|].
    intros se Hin. apply String.eqb_neq. exact (find_none _ _ Hf _ Hin). }
  now rewrite Hf'.
Qed.

(** ** What each route leaves alone *)

(** X7.  Registration, profile reads and profile updates never touch
    the sessions; login, logout and profile reads never touch the
    users. *)
Theorem serve_frame (c : Call) (s : Store) :
  (route c = POST_register \/ route c = GET_user \/ route c = PATCH_user ->
   sessions (snd (serve c s)) = sessions s)
  /\ (route c = POST_login \/ route c = POST_logout \/ route c = GET_user ->
      users (snd (serve c s)) = users s
      /\ fresh (snd (serve c s)) = fresh s).
Proof.
  unfold serve. split.
  - intros [H|[H|H]]; rewrite H.
    + destruct (register_store (clock c) (request c) s)
        as [->|[u [_ [_ ->]]]]; reflexivity.
    + now rewrite get_user_store.
    + destruct (patch_user_store (clock c) (request c) s) as [->|[uid ->]];
        [reflexivity|].
      destruct (patch_user_handler_store (clock c) (request c) uid s)
        as [->|[u [u' [_ [_ [_ ->]]]]]]; reflexivity.
  - intros [H|[H|H]]; rewrite H.
    + destruct (login_store (clock c) (clock_later c) (request c) s)
        as [->|[_ [_ [u [_ [_ ->]]]]]]; now split.
    + rewrite logout_eq. cbn [snd].
      now destruct (Js.truthy (session_key_header (request c))).
    + now rewrite get_user_store.
Qed.

Lemma serve_ids c s :
  exists l, map _id (users (snd (serve c s))) = (map _id (users s) ++ l)%list.
Proof.
  unfold serve. destruct (route c).
  - destruct (register_store (clock c) (request c) s) as [->|[u [_ [_ ->]]]].
    + exists []. now rewrite app_nil_r.
    + exists [_id u]. cbn [users]. now rewrite map_app.
  - destruct (login_store (clock c) (clock_later c) (request c) s)
      as [->|[_ [_ [u [_ [_ ->]]]]]]; exists []; now rewrite app_nil_r.
  - rewrite logout_eq. cbn [snd]. exists [].
    rewrite app_nil_r.
    now destruct (Js.truthy (session_key_header (request c))).
  - rewrite get_user_store. exists []. now rewrite app_nil_r.
  - exists []. rewrite app_nil_r.
    destruct (patch_user_store (clock c) (request c) s) as [->|[uid ->]];
      [reflexivity|].
    destruct (patch_user_handler_store (clock c) (request c) uid s)
      as [->|[u [u' [_ [_ [_ ->]]]]]]; [reflexivity|].
    cbn [users]. apply replace_by_id_ids.
Qed.

(** X8.  No route deletes a user or changes the id of one: after any
    calls, the ids of the users are the ids there were, in the same
    order, followed by the ids of the users registered since. *)
Theorem users_never_deleted (cs : list Call) (s : Store) :
  exists l, map _id (users (run cs s)) = (map _id (users s) ++ l)%list.
Proof.
  revert s. induction cs as [|c cs IH]; simpl; intros s.
  - exists []. now rewrite app_nil_r.
  - destruct (IH (snd (serve c s))) as [l Hl].
    destruct (serve_ids c s) as [l' Hl'].
    exists (l' ++ l)%list. now rewrite Hl, Hl', app_assoc.
Qed.

(** ** POST /register and POST /logout, edge cases *)

(** X9.  A registration that succeeded cannot be repeated: a second
    registration with the same e-mail, served next with whatever name
    and password, is answered 409 and changes nothing. *)
Theorem register_twice (now now' : Z) (req req' : Request)
    (o o' : Js.object) (e n' p' : string) (s : Store) :
  body req = Some o -> Js.get o "email" = Some (Js.JStr e) ->
  fst (register now req s) = Sent (status_only 200) ->
  body req' = Some o' -> Js.get o' "email" = Some (Js.JStr e) ->
  Js.get o' "name" = Some (Js.JStr n') -> n' <> "" ->
  Js.get o' "password" = Some (Js.JStr p') -> p' <> "" ->
  let s1 := snd (register now req s) in
  register now' req' s1 = (Sent (status_only 409), s1).
Proof.
  intros Hb He H200 Hb' He' Hn' Hnn' Hp' Hnp' s1.
  assert (Hs1 : e <> "" /\ exists u, In u (users s1) /\ email u = e).
  { subst s1. revert H200.
    unfold register, body_field, bind, ret, throw, sendStatus, send.
    rewrite Hb, He.
    destruct (Js.truthy_value (Js.get o "name")) as [n|]; [|discriminate].
    destruct (Js.truthy_value (Some (Js.JStr e))) as [e0|] eqn:Ht;
      [|discriminate].
    assert (Hne : e <> "") by (intros ->; discriminate).
    apply truthy_value_Some in Ht. inversion Ht; subst e0.
    destruct (Js.truthy_value (Js.get o "password")) as [p|];
      [|discriminate].
    unfold UserDao_findOne, by_email, UserDao_create. cbn [to_String].
    destruct (find _ (users s)) eqn:Hf; [discriminate|].
    unfold sha256Hash_of, ret, throw.
    destruct p; try discriminate.
    destruct (to_String n) as [sn|]; [|discriminate].
    rewrite (find_none_existsb _ _ Hf), andb_false_r.
    intros _. split; [exact Hne|].
    cbn [snd users]. eexists. split; [apply in_or_app; right; now left|].
    reflexivity. }
  destruct Hs1 as [Hne [u [Hin Hu]]].
  rewrite (register_eq now' req' o' n' e p') by assumption.
  destruct (find (fun u => email u =? e) (users s1)) eqn:Hf; [reflexivity|].
  apply (find_none _ _ Hf) in Hin. apply String.eqb_neq in Hin. congruence.
Qed.

(** X10.  A logout never removes more than one session, and with a key
    that no session has it leaves the database exactly as it was. *)
Theorem logout_unknown_key (req : Request) (s : Store) :
  (length (sessions s) <= S (length (sessions (snd (logout req s)))))%nat
  /\ (forall k, session_key_header req = Some k ->
        (forall se, In se (sessions s) -> sessionKey se <> k) ->
        logout req s = (Sent (status_only 200), s)).
Proof.
  rewrite logout_eq. cbn [snd]. split.
  - destruct (Js.truthy (session_key_header req)) as [k|]; [|lia].
    cbn [sessions]. induction (sessions s) as [|a l IH]; simpl; [lia|].
    destruct (sessionKey a =? k); simpl; lia.
  - intros k Hk Hnone. f_equal.
    destruct (Js.truthy (session_key_header req)) as [k'|] eqn:Ht;
      [|reflexivity].
    rewrite Hk in Ht. apply truthy_Some in Ht. destruct Ht as [Ht _].
    inversion Ht; subst k'.
    rewrite remove_first_none; [now destruct s|].
    intros se Hin. apply String.eqb_neq. auto.
Qed.

(** ** PATCH /user, the other updates *)

Lemma checkLoginInterceptor_sessions q s s' :
  sessions s' = sessions s ->
  fst (checkLoginInterceptor q s') = fst (checkLoginInterceptor q s).
Proof.
  intros H. rewrite !checkLoginInterceptor_eq, H.
  destruct (Js.truthy (session_key_header q)); [|reflexivity].
  now destruct (find _ (sessions s)).
Qed.

(** X11.  An authenticated PATCH /user whose body has a new e-mail
    that no stored user has, and neither name nor password: the answer
    is 200; the stored document of the user gets the new e-mail and the
    current time as last-updated timestamp, name and password digest
    as they were; the user is the one found under the new e-mail; and,
    ids and e-mails being distinct, no user has the old e-mail any
    more. *)
Theorem patch_user_email_change (now : Z) (req : Request) (uid : ObjectId)
    (u : User) (b : Js.object) (e : string) (s : Store) :
  checkLoginInterceptor req s = (Next uid, s) ->
  find (fun v => (_id v =? uid)%N) (users s) = Some u ->
  body req = Some b ->
  Js.get b "email" = Some (Js.JStr e) -> e <> "" -> email u <> e ->
  (forall v, In v (users s) -> email v <> e) ->
  Js.get b "name" = None -> Js.get b "password" = None ->
  let u' := {| _id := _id u; name := name u; email := e;
               password := password u; updateAt := now |} in
  let s' := {| users := replace_by_id u' (users s);
               sessions := sessions s;
               fresh := fresh s |} in
  patch_user now req s = (Sent (status_only 200), s')
  /\ find (fun v => (_id v =? uid)%N) (users s') = Some u'
  /\ find (fun v => email v =? e) (users s') = Some u'
  /\ (NoDup (map _id (users s)) -> NoDup (map email (users s)) ->
      forall v, In v (users s') -> email v <> email u).
Proof.
  intros Hgate Hu Hb He Hne Hdiff Hfree Hn Hp u' s'.
  assert (Hid : _id u = uid).
  { apply find_some in Hu. now apply N.eqb_eq. }
  assert (Hu' : find (fun v => (_id v =? _id u')%N) (users s) = Some u)
    by (change (_id u') with (_id u); now rewrite Hid).
  split; [|split; [|split]].
  - rewrite (patch_user_authenticated _ _ _ _ Hgate).
    rewrite (patch_user_handler_eq _ _ _ _ _ _ Hu Hb)
      by (apply (body_with_field_not_empty b "email" (Js.JStr e)); tauto).
    rewrite He, Hp, Hn, (truthy_value_string _ Hne).
    unfold ne. pose proof Hdiff as Hd. apply String.eqb_neq in Hd. rewrite Hd.
    cbn [negb Js.truthy_value].
    assert (Hf : find (fun v => email v =? e) (users s) = None).
    { apply find_none_iff. intros v Hin. apply String.eqb_neq. auto. }
    unfold bind, ret, UserDao_findOne, by_email, Doc_save, UserDao_save,
      assign, store.
    cbn [to_String]. rewrite Hf.
    cbn [fst snd doc invalid].
    change (set_updateAt (set_email u e) now) with u'.
    assert (Hx : existsb (fun v => negb (_id v =? _id u')%N
                                   && (email v =? email u')) (users s)
                 = false).
    { apply find_none_existsb. apply find_none_iff. intros v Hin.
      apply andb_false_iff. right. apply String.eqb_neq.
      now apply Hfree. }
    now rewrite Hx, andb_false_r.
  - subst s'. cbn [users]. rewrite <- Hid.
    change (_id u) with (_id u'). eapply find_replace_by_id; eauto.
  - subst s'. cbn [users]. change e with (email u').
    eapply find_email_replace_by_id; eauto.
  - intros Hids Hems v Hin. subst s'. cbn [users] in Hin.
    eapply replace_by_id_old_email; eauto; cbn; congruence.
Qed.

(** X12.  An authenticated PATCH /user whose body has a new password
    and neither e-mail nor name, in a well-formed database: the answer
    is 200 and the stored digest becomes the digest of the new password;
    from then on a login with the user's e-mail and a password of
    another digest, the old one included, is answered 404, and a login
    with the new password, served at a clock value whose key is not
    empty and not stored, is answered 200 with a key. *)
Theorem patch_user_password_change (now : Z) (req : Request)
    (uid : ObjectId) (u : User) (b : Js.object) (p' : string) (s : Store) :
  wf s -> email u <> "" ->
  checkLoginInterceptor req s = (Next uid, s) ->
  find (fun v => (_id v =? uid)%N) (users s) = Some u ->
  body req = Some b ->
  Js.get b "password" = Some (Js.JStr p') -> p' <> "" ->
  Js.get b "email" = None -> Js.get b "name" = None ->
  let u' := {| _id := _id u; name := name u; email := email u;
               password := sha256Hash p'; updateAt := now |} in
  let s' := {| users := replace_by_id u' (users s);
               sessions := sessions s;
               fresh := fresh s |} in
  patch_user now req s = (Sent (status_only 200), s')
  /\ (forall now' later' q o p0,
        body q = Some o -> Js.get o "email" = Some (Js.JStr (email u)) ->
        Js.get o "password" = Some (Js.JStr p0) -> p0 <> "" ->
        sha256Hash p0 <> sha256Hash p' ->
        login now' later' q s' = (Sent (status_only 404), s'))
  /\ (forall now' later' q o,
        body q = Some o -> Js.get o "email" = Some (Js.JStr (email u)) ->
        Js.get o "password" = Some (Js.JStr p') ->
        gensessionKey now' <> "" ->
        (forall se, In se (sessions s) -> sessionKey se <> gensessionKey now') ->
        fst (login now' later' q s')
        = Sent {| status := 200;
                  payload := LoginResponse (gensessionKey now') |}).
Proof.
  intros Hwf Hemail Hgate Hu Hb Hp Hnp He Hn u' s'.
  assert (Hid : _id u = uid).
  { apply find_some in Hu. now apply N.eqb_eq. }
  assert (Hu' : find (fun v => (_id v =? _id u')%N) (users s) = Some u)
    by (change (_id u') with (_id u); now rewrite Hid).
  assert (Hin' : In u' (users s')).
  { pose proof (find_replace_by_id _ _ _ Hu') as H.
    now apply find_some in H. }
  assert (Hems' : NoDup (map email (users s'))).
  { subst s'. cbn [users].
    apply (replace_by_id_emails u); try assumption;
      [apply (wf_ids _ Hwf) | apply (wf_emails _ Hwf) | now left]. }
  split; [|split].
  - rewrite (patch_user_authenticated _ _ _ _ Hgate).
    rewrite (patch_user_handler_eq _ _ _ _ _ _ Hu Hb)
      by (apply (body_with_field_not_empty b "password" (Js.JStr p'));
          tauto).
    rewrite He, Hp, Hn, (truthy_value_string _ Hnp).
    unfold assign, store, sha256Hash_of, Doc_save, UserDao_save.
    unfold bind, ret. cbn [Js.truthy_value fst snd doc invalid].
    change (set_updateAt (set_password u (sha256Hash p')) now) with u'.
    rewrite Hu'. change (email u') with (email u).
    rewrite String.eqb_refl. cbn [negb]. now rewrite andb_false_r.
  - intros now' later' q o p0 Hq Hqe Hqp Hp0 Hdig.
    rewrite (login_eq now' later' q o (email u) p0) by assumption.
    assert (Hf : find (fun v => (email v =? email u)
                                && (password v =? sha256Hash p0))
                      (users s') = None).
    { apply find_none_iff. intros v Hv.
      destruct (email v =? email u) eqn:E; [|reflexivity].
      apply String.eqb_eq in E.
      assert (v = u') by (apply (NoDup_map_inj email (users s')); auto).
      subst v. cbn. apply String.eqb_neq. congruence. }
    now rewrite Hf.
  - intros now' later' q o Hq Hqe Hqp Hk Hfresh.
    rewrite (login_eq now' later' q o (email u) p') by assumption.
    change (email u) with (email u').
    change (sha256Hash p') with (password u').
    rewrite (find_unique_credentials _ _ Hems' Hin').
    apply String.eqb_neq in Hk. rewrite Hk.
    assert (Hx : existsb (fun se => sessionKey se =? gensessionKey now')
                         (sessions s') = false).
    { apply find_none_existsb. apply find_none_iff. intros se Hse.
      apply String.eqb_neq. auto. }
    now rewrite Hx.
Qed.

(** X13.  An authenticated PATCH /user whose body passes the emptiness
    test but asks for no change (name and password missing or falsy,
    and the e-mail missing, falsy or the e-mail the user already has)
    is answered 200 and nothing is written: the last-updated timestamp
    is not stamped. *)
Theorem patch_user_no_change (now : Z) (req : Request) (uid : ObjectId)
    (u : User) (b : Js.object) (s : Store) :
  checkLoginInterceptor req s = (Next uid, s) ->
  find (fun v => (_id v =? uid)%N) (users s) = Some u ->
  body req = Some b ->
  Js.array_lt_one (Js.keys b) = false ->
  falsy (Js.get b "email")
  \/ Js.get b "email" = Some (Js.JStr (email u)) ->
  falsy (Js.get b "name") ->
  falsy (Js.get b "password") ->
  patch_user now req s = (Sent (status_only 200), s).
Proof.
  intros Hgate Hu Hb Hk He Hn Hp.
  rewrite (patch_user_authenticated _ _ _ _ Hgate).
  rewrite (patch_user_handler_eq _ _ _ _ _ _ Hu Hb Hk).
  apply truthy_value_None in Hn, Hp. rewrite Hn, Hp.
  destruct He as [He|He].
  - apply truthy_value_None in He. now rewrite He.
  - rewrite He. cbn [Js.truthy_value].
    destruct (email u =? ""); [reflexivity|].
    unfold ne. now rewrite String.eqb_refl.
Qed.

(** X14.  The emptiness test [Object.keys(req.body) < 1] of
    PATCH /user: an object without fields fails it (400); an object with
    two or more fields passes, whatever their names; an object one of
    whose field names has a byte that no numeric literal and no white
    space contains passes; and an object with a single field whose
    name is empty or made of white-space characters only, the no-break
    space and the other Unicode spaces included, fails it. *)
Theorem emptiness_test_spec (o : Js.object) :
  (o = [] -> Js.array_lt_one (Js.keys o) = true)
  /\ ((2 <= length o)%nat -> Js.array_lt_one (Js.keys o) = false)
  /\ (forall k c, In k (Js.keys o) -> In c (list_ascii_of_string k) ->
        Js.lit_char c = false -> Js.array_lt_one (Js.keys o) = false)
  /\ (forall k v ws, o = [(k, v)] ->
        Forall (fun w => In w Js.ws_chars) ws ->
        list_ascii_of_string k = concat ws ->
        Js.array_lt_one (Js.keys o) = true).
Proof.
  split; [|split; [|split]].
  - now intros ->.
  - destruct o as [|[k v] [|[k' v'] o]]; simpl; try lia. intros _.
    unfold Js.array_lt_one. cbn [Js.keys map fst].
    now rewrite (StringToNumber_NaN _ ","%char);
      [| apply join_two_comma |].
  - intros k c Hk Hc Hl. exact (array_lt_one_key c k _ Hk Hc Hl).
  - intros k v ws -> Hws Hk. unfold Js.array_lt_one, Js.StringToNumber.
    cbn [Js.keys map fst Js.join]. now rewrite Hk, (trim_ws ws Hws).
Qed.

(** ** Round trips *)

(** X15.  What PATCH /user writes, GET /user reads: after an
    authenticated update of the name alone, a profile read with any key
    of the same user is answered 200 with the new name, the e-mail as it
    was and the time of the update as last-updated timestamp. *)
Theorem patch_name_then_get (now : Z) (req q : Request) (uid : ObjectId)
    (u : User) (b : Js.object) (n : string) (s : Store) :
  checkLoginInterceptor req s = (Next uid, s) ->
  find (fun v => (_id v =? uid)%N) (users s) = Some u ->
  body req = Some b ->
  Js.get b "name" = Some (Js.JStr n) -> n <> "" ->
  Js.get b "email" = None -> Js.get b "password" = None ->
  checkLoginInterceptor q s = (Next uid, s) ->
  let s' := snd (patch_user now req s) in
  get_user q s' =
    (Sent {| status := 200; payload := UserInfo n (email u) now |}, s').
Proof.
  intros Hgate Hu Hb Hn Hne He Hp Hq s'.
  assert (Hid : _id u = uid).
  { apply find_some in Hu. now apply N.eqb_eq. }
  assert (Hs' : s' = {| users := replace_by_id (set_updateAt (set_name u n) now)
                                               (users s);
                        sessions := sessions s; fresh := fresh s |}).
  { subst s'. rewrite (patch_user_authenticated _ _ _ _ Hgate).
    now rewrite (patch_user_handler_name _ _ _ _ _ _ _ Hu Hb Hn Hne He Hp). }
  assert (Hq' : checkLoginInterceptor q s' = (Next uid, s')).
  { pose proof (checkLoginInterceptor_sessions q s s') as H.
    rewrite Hs' in H at 1. specialize (H eq_refl). rewrite Hq in H.
    rewrite checkLoginInterceptor_eq in *.
    destruct (Js.truthy (session_key_header q)); [|discriminate].
    destruct (find _ (sessions s')); [|discriminate].
    cbn [fst] in H. now rewrite H. }
  rewrite get_user_eq, Hq'.
  assert (Hf : find (fun v => (_id v =? uid)%N) (users s')
               = Some (set_updateAt (set_name u n) now)).
  { rewrite Hs'. cbn [users]. rewrite <- Hid.
    change (_id u) with (_id (set_updateAt (set_name u n) now)).
    eapply find_replace_by_id.
    change (_id (set_updateAt (set_name u n) now)) with (_id u).
    rewrite Hid. exact Hu. }
  now rewrite Hf.
Qed.

(** X16.  Register, login, read: in a well-formed database without a
    user of the e-mail, a registration with non-empty fields is answered
    200; a login with the same e-mail and password, served next at a
    clock value whose key is not empty and not stored, is answered 200
    with the generated key; and a profile read that presents this key
    is answered 200 with the registered name and e-mail. *)
Theorem register_login_get (now0 now1 later1 : Z) (req req' : Request)
    (o o' : Js.object) (n e p : string) (s : Store) :
  wf s ->
  body req = Some o ->
  Js.get o "name" = Some (Js.JStr n) -> n <> "" ->
  Js.get o "email" = Some (Js.JStr e) -> e <> "" ->
  Js.get o "password" = Some (Js.JStr p) -> p <> "" ->
  (forall v, In v (users s) -> email v <> e) ->
  body req' = Some o' ->
  Js.get o' "email" = Some (Js.JStr e) ->
  Js.get o' "password" = Some (Js.JStr p) ->
  gensessionKey now1 <> "" ->
  (forall se, In se (sessions s) -> sessionKey se <> gensessionKey now1) ->
  let s1 := snd (register now0 req s) in
  let s2 := snd (login now1 later1 req' s1) in
  fst (register now0 req s) = Sent (status_only 200)
  /\ fst (login now1 later1 req' s1)
     = Sent {| status := 200; payload := LoginResponse (gensessionKey now1) |}
  /\ exists t,
       get_user (presenting (gensessionKey now1)) s2
       = (Sent {| status := 200; payload := UserInfo n e t |}, s2).
Proof.
  intros Hwf Hb Hn Hnn He Hne Hp Hnp Hfree Hb' He' Hp' Hk Hfresh s1 s2.
  assert (Hf : find (fun u => email u =? e) (users s) = None).
  { apply find_none_iff. intros v Hin. apply String.eqb_neq. auto. }
  set (u := {| _id := fresh s; name := n; email := e;
               password := sha256Hash p; updateAt := now0 |}).
  assert (Hreg : register now0 req s =
                 (Sent (status_only 200),
                  {| users := users s ++ [u]; sessions := sessions s;
                     fresh := N.succ (fresh s) |})).
  { rewrite (register_eq now0 req o n e p) by assumption. now rewrite Hf. }
  assert (Hs1 : s1 = {| users := users s ++ [u]; sessions := sessions s;
                        fresh := N.succ (fresh s) |})
    by (subst s1; now rewrite Hreg).
  assert (Hcred : find (fun v => (email v =? e) && (password v =? sha256Hash p))
                       (users s1) = Some u).
  { rewrite Hs1. cbn [users]. rewrite find_app_none.
    - cbn. now rewrite !String.eqb_refl.
    - apply find_none_iff. intros v Hin. apply andb_false_iff. left.
      apply String.eqb_neq. auto. }
  set (se := {| sessionKey := gensessionKey now1; userId := fresh s;
                expiredAt := later1 + 7*24*60*60*1000 |}).
  assert (Hlog : login now1 later1 req' s1 =
                 (Sent {| status := 200;
                          payload := LoginResponse (gensessionKey now1) |},
                  {| users := users s ++ [u]; sessions := sessions s ++ [se];
                     fresh := N.succ (fresh s) |})).
  { rewrite (login_eq now1 later1 req' o' e p) by assumption.
    rewrite Hcred. pose proof Hk as Hk'. apply String.eqb_neq in Hk'.
    rewrite Hk'.
    assert (Hx : existsb (fun x => sessionKey x =? gensessionKey now1)
                         (sessions s1) = false).
    { rewrite Hs1. cbn [sessions]. apply find_none_existsb.
      apply find_none_iff. intros x Hx. apply String.eqb_neq. auto. }
    rewrite Hx, Hs1. reflexivity. }
  split; [now rewrite Hreg|]. split; [now rewrite Hlog|].
  exists now0.
  assert (Hs2 : s2 = {| users := users s ++ [u]; sessions := sessions s ++ [se];
                        fresh := N.succ (fresh s) |})
    by (subst s2; now rewrite Hlog).
  rewrite get_user_eq, checkLoginInterceptor_eq.
  cbn [presenting session_key_header]. rewrite (truthy_nonempty _ Hk).
  assert (Hfs : find (fun x => sessionKey x =? gensessionKey now1)
                     (sessions s2) = Some se).
  { rewrite Hs2. cbn [sessions]. rewrite find_app_none.
    - cbn. now rewrite String.eqb_refl.
    - apply find_none_iff. intros x Hx. apply String.eqb_neq. auto. }
  rewrite Hfs. cbn [userId se].
  assert (Hfu : find (fun v => (_id v =? fresh s)%N) (users s2) = Some u).
  { rewrite Hs2. cbn [users]. rewrite find_app_none.
    - cbn. now rewrite N.eqb_refl.
    - apply find_none_iff. intros v Hin. apply N.eqb_neq.
      pose proof (wf_fresh _ Hwf) as Hlt. rewrite Forall_forall in Hlt.
      specialize (Hlt _ Hin). lia. }
  now rewrite Hfu.
Qed.

(** ** Invariants of the databases the router builds *)

Lemma serve_refs c s :
  (forall se, In se (sessions s) -> In (userId se) (map _id (users s))) ->
  forall se, In se (sessions (snd (serve c s))) ->
             In (userId se) (map _id (users (snd (serve c s)))).
Proof.
  intros H se Hin.
  destruct (serve_ids c s) as [l Hl]. rewrite Hl. apply in_or_app.
  revert Hin. unfold serve. destruct (route c).
  - destruct (register_store (clock c) (request c) s) as [->|[u [_ [_ ->]]]];
      cbn [sessions]; auto.
  - destruct (login_store (clock c) (clock_later c) (request c) s)
      as [->|[_ [_ [u [Hu [_ ->]]]]]]; [auto|].
    cbn [sessions]. intros Hin. apply in_app_or in Hin.
    destruct Hin as [Hin|[<-|[]]]; [auto|]. left. cbn. now apply in_map.
  - rewrite logout_eq. cbn [snd].
    destruct (Js.truthy (session_key_header (request c))); [|auto].
    cbn [sessions]. intros Hin. left. apply H.
    eapply remove_first_incl; eauto.
  - rewrite get_user_store. auto.
  - destruct (patch_user_store (clock c) (request c) s) as [->|[uid ->]];
      [auto|].
    destruct (patch_user_handler_store (clock c) (request c) uid s)
      as [->|[u [u' [_ [_ [_ ->]]]]]]; cbn [sessions]; auto.
Qed.

Lemma run_refs cs :
  forall s,
    (forall se, In se (sessions s) -> In (userId se) (map _id (users s))) ->
    forall se, In se (sessions (run cs s)) ->
               In (userId se) (map _id (users (run cs s))).
Proof.
  induction cs as [|c cs IH]; simpl; intros s H; [exact H|].
  apply IH. now apply serve_refs.
Qed.

(** X17.  In every database that sequential calls lead to from the
    empty one, every session belongs to a stored user.  So the 401 of
    GET /user for a user that is gone is never sent there: a request
    that the interceptor lets through is answered 200 with the profile
    of a stored user whose id is the one of the session. *)
Theorem session_user_exists (cs : list Call) (q : Request) (uid : ObjectId) :
  let s := run cs empty_store in
  checkLoginInterceptor q s = (Next uid, s) ->
  exists u,
    In u (users s) /\ _id u = uid
    /\ get_user q s =
         (Sent {| status := 200;
                  payload := UserInfo (name u) (email u) (updateAt u) |}, s).
Proof.
  intros s Hq.
  assert (Hse : exists se, In se (sessions s) /\ userId se = uid).
  { rewrite checkLoginInterceptor_eq in Hq.
    destruct (Js.truthy (session_key_header q)); [|discriminate].
    destruct (find _ (sessions s)) as [se|] eqn:Hf; [|discriminate].
    exists se. split; [now apply find_some in Hf | now inversion Hq]. }
  destruct Hse as [se [Hin Hu]].
  assert (Hid : In uid (map _id (users s))).
  { rewrite <- Hu. apply (run_refs cs empty_store); [intros ? [] | exact Hin]. }
  apply in_map_iff in Hid. destruct Hid as [u [Hu' Hin']].
  exists u. split; [exact Hin'|]. split; [exact Hu'|].
  rewrite get_user_eq, Hq, <- Hu'.
  rewrite (find_unique_id (users s) u
             (wf_ids _ (run_wf cs _ empty_store_wf)) Hin').
  reflexivity.
Qed.

(** X18.  In every database that sequential calls lead to from the
    empty one, no two sessions have the same key and no session has an
    empty key: a key identifies at most one session, hence at most one
    user. *)
Theorem session_keys_invariant (cs : list Call) :
  let s := run cs empty_store in
  NoDup (map sessionKey (sessions s))
  /\ Forall (fun se => sessionKey se <> "") (sessions s)
  /\ forall se se', In se (sessions s) -> In se' (sessions s) ->
                    sessionKey se = sessionKey se' -> userId se = userId se'.
Proof.
  intros s. pose proof (run_wf cs _ empty_store_wf) as Hwf. fold s in Hwf.
  split; [apply (wf_keys _ Hwf)|]. split; [apply (wf_keys_nonempty _ Hwf)|].
  intros se se' Hin Hin' Hk.
  now rewrite (NoDup_map_inj sessionKey _ _ _ (wf_keys _ Hwf) Hin Hin' Hk).
Qed.

(** ** Responses *)

Lemma UserDao_save_ok u u' s :
  find (fun v => (_id v =? _id u')%N) (users s) = Some u ->
  (email u' = email u \/ forall v, In v (users s) -> email v <> email u') ->
  UserDao_save u' s =
  (Next tt, {| users := replace_by_id u' (users s);
               sessions := sessions s; fresh := fresh s |}).
Proof.
  intros Hu H. unfold UserDao_save. rewrite Hu.
  destruct H as [H|H].
  - rewrite H, String.eqb_refl. cbn [negb]. now rewrite andb_false_r.
  - assert (Hx : existsb (fun v => negb (_id v =? _id u')%N
                                   && (email v =? email u')) (users s)
                 = false).
    { apply find_none_existsb. apply find_none_iff. intros v Hin.
      apply andb_false_iff. right. apply String.eqb_neq. auto. }
    now rewrite Hx, andb_false_r.
Qed.

Lemma string_fields_inv req o k :
  string_fields req -> body req = Some o ->
  In k ["name"; "email"; "password"] ->
  Js.truthy_value (Js.get o k) = None
  \/ exists t, Js.truthy_value (Js.get o k) = Some (Js.JStr t).
Proof.
  intros H Ho Hk.
  destruct (Js.truthy_value (Js.get o k)) as [v|] eqn:E; [|now left].
  destruct (H o k v Ho Hk E) as [t ->]. right. now exists t.
Qed.

Lemma patch_user_handler_responds now req uid s :
  string_fields req ->
  exists code,
    In code [200; 400; 401; 409]%nat
    /\ fst (patch_user_handler now req uid s) = Sent (status_only code).
Proof.
  intros Hsf.
  destruct (find (fun v => (_id v =? uid)%N) (users s)) as [u|] eqn:Hu.
  2:{ exists 401%nat. split; [simpl; tauto|].
      unfold patch_user_handler, bind, UserDao_findById. now rewrite Hu. }
  destruct (body req) as [b|] eqn:Hb.
  2:{ exists 400%nat. split; [simpl; tauto|].
      unfold patch_user_handler, bind, UserDao_findById. now rewrite Hu, Hb. }
  destruct (Js.array_lt_one (Js.keys b)) eqn:Hk.
  { exists 400%nat. split; [simpl; tauto|].
    unfold patch_user_handler, bind, UserDao_findById.
    now rewrite Hu, Hb, Hk. }
  assert (Hid : _id u = uid).
  { apply find_some in Hu. now apply N.eqb_eq. }
  rewrite (patch_user_handler_eq _ _ _ _ _ _ Hu Hb Hk). cbv zeta.
  unfold assign, store, sha256Hash_of, Doc_save.
  unfold bind, ret, sendStatus, send, UserDao_findOne, by_email, ne.
  destruct (string_fields_inv req b "email" Hsf Hb) as [->|[e ->]];
    [simpl; tauto| |];
    [|destruct (email u =? e) eqn:He; cbn [negb to_String];
      [|destruct (find (fun v => email v =? e) (users s)) eqn:Hf;
        [exists 409%nat; simpl; tauto|]]];
  (destruct (string_fields_inv req b "name" Hsf Hb) as [->|[n ->]];
    [simpl; tauto| |]);
  (destruct (string_fields_inv req b "password" Hsf Hb) as [->|[p ->]];
    [simpl; tauto| |]);
  cbn [fst snd to_String doc invalid];
  try (exists 200%nat; simpl; tauto);
  match goal with
  | |- context [UserDao_save ?x s] =>
      rewrite (UserDao_save_ok u x s);
        [exists 200%nat; simpl; tauto
        |cbn; rewrite Hid; exact Hu
        |cbn; first [now left
                    | right; intros v Hin; apply (find_none _ _ Hf) in Hin;
                      now apply String.eqb_neq]]
  end.
Qed.

(** X19.  Logout and the profile read always answer.  When every
    truthy field among name, e-mail and password of the body is a
    string, the profile update always answers, and so does a
    registration with a parsed body: no lookup or write of theirs is
    refused by the database, with or without a unique index on the
    e-mail.  Under the same condition a login with a parsed body
    answers when the generated key is not empty and not the key of a
    stored session and the expiry is a valid date.  A login whose
    e-mail is truthy and whose password is truthy but not a string
    answers nothing: the digest throws, and the database is as it
    was. *)
Theorem always_responds (c : Call) (s : Store) :
  (route c = POST_logout \/ route c = GET_user ->
   exists r, fst (serve c s) = Sent r)
  /\ (string_fields (request c) ->
      route c = PATCH_user
      \/ (route c = POST_register /\ body (request c) <> None) ->
      exists r, fst (serve c s) = Sent r)
  /\ (string_fields (request c) ->
      route c = POST_login -> body (request c) <> None ->
      gensessionKey (clock c) <> "" ->
      (forall se, In se (sessions s) ->
                  sessionKey se <> gensessionKey (clock c)) ->
      (- 8640000000000000 <= clock_later c + 604800000
       <= 8640000000000000)%Z ->
      exists r, fst (serve c s) = Sent r)
  /\ (route c = POST_login ->
      forall o e p,
        body (request c) = Some o ->
        Js.truthy_value (Js.get o "email") = Some e ->
        Js.truthy_value (Js.get o "password") = Some p ->
        (forall t, p <> Js.JStr t) ->
        serve c s = (Thrown TypeError, s)).
Proof.
  unfold serve. split; [|split; [|split]].
  - intros [H|H]; rewrite H.
    + rewrite logout_eq. cbn [fst]. eauto.
    + rewrite get_user_eq, checkLoginInterceptor_eq.
      destruct (Js.truthy (session_key_header (request c))); [|cbn [fst]; eauto].
      destruct (find _ (sessions s)); [|cbn [fst]; eauto].
      destruct (find _ (users s)); cbn [fst]; eauto.
  - intros Hsf [H|[H Hb]]; rewrite H.
    + unfold patch_user, bind. rewrite checkLoginInterceptor_eq.
      destruct (Js.truthy (session_key_header (request c))); [|cbn [fst]; eauto].
      destruct (find _ (sessions s)) as [se|]; [|cbn [fst]; eauto].
      destruct (patch_user_handler_responds (clock c) (request c)
                  (userId se) s Hsf) as [code [_ Hc]].
      destruct (patch_user_handler _ _ _ s) as [r s']. cbn [fst] in *.
      rewrite Hc. eauto.
    + destruct (body (request c)) as [o|] eqn:Ho; [|congruence].
      unfold register, body_field, bind, ret, sendStatus, send. rewrite Ho.
      destruct (string_fields_inv _ o "name" Hsf Ho) as [->|[n ->]];
        [simpl; tauto | cbn [fst]; eauto |].
      destruct (string_fields_inv _ o "email" Hsf Ho) as [->|[e ->]];
        [simpl; tauto | cbn [fst]; eauto |].
      destruct (string_fields_inv _ o "password" Hsf Ho) as [->|[p ->]];
        [simpl; tauto | cbn [fst]; eauto |].
      unfold UserDao_findOne, by_email, UserDao_create, sha256Hash_of, ret.
      cbn [to_String].
      destruct (find _ (users s)) eqn:Hf; [cbn [fst]; eauto|].
      rewrite (find_none_existsb _ _ Hf), andb_false_r. cbn [fst]. eauto.
  - intros Hsf H Hb Hk Hfresh _. rewrite H.
    destruct (body (request c)) as [o|] eqn:Ho; [|congruence].
    unfold login, body_field, bind, ret, sendStatus, send. rewrite Ho.
    destruct (string_fields_inv _ o "email" Hsf Ho) as [->|[e ->]];
      [simpl; tauto | cbn [fst]; eauto |].
    destruct (string_fields_inv _ o "password" Hsf Ho) as [->|[p ->]];
      [simpl; tauto | cbn [fst]; eauto |].
    unfold UserDao_findOne, by_email, SessionDao_create, sha256Hash_of, ret.
    cbn [to_String].
    destruct (find _ (users s)); [|cbn [fst]; eauto].
    apply String.eqb_neq in Hk. rewrite Hk.
    assert (Hx : existsb (fun se => sessionKey se =? gensessionKey (clock c))
                         (sessions s) = false).
    { apply find_none_existsb. apply find_none_iff. intros se Hse.
      apply String.eqb_neq. auto. }
    rewrite Hx. cbn [fst]. eauto.
  - intros H o e p Ho He Hp Hns. rewrite H.
    unfold login, body_field, bind, ret. rewrite Ho, He, Hp.
    unfold sha256Hash_of, throw.
    destruct p as [|b|neg m x|t|l|o']; try reflexivity.
    now destruct (Hns t).
Qed.

(** X20.  The status codes of each route: registration answers 200,
    400 or 409; login 200, 400 or 404; logout 200; the profile read 200
    or 401; the profile update 200, 400, 401 or 409.  Only a 200 of
    login or of the profile read carries data. *)
Theorem status_codes (c : Call) (s : Store) (r : Response) :
  fst (serve c s) = Sent r ->
  In (status r)
     match route c with
     | POST_register => [200; 400; 409]
     | POST_login => [200; 400; 404]
     | POST_logout => [200]
     | GET_user => [200; 401]
     | PATCH_user => [200; 400; 401; 409]
     end%nat
  /\ (payload r <> StatusText ->
      status r = 200%nat /\ (route c = POST_login \/ route c = GET_user)).
Proof.
  unfold serve. destruct (route c).
  - unfold register, body_field, bind, ret, throw, sendStatus, send.
    destruct (body (request c)) as [o|]; [|discriminate].
    destruct (Js.truthy_value (Js.get o "name")) as [n|];
      [|intros [= <-]; simpl; tauto].
    destruct (Js.truthy_value (Js.get o "email")) as [e|];
      [|intros [= <-]; simpl; tauto].
    destruct (Js.truthy_value (Js.get o "password")) as [p|];
      [|intros [= <-]; simpl; tauto].
    unfold UserDao_findOne, UserDao_create.
    destruct (by_email e) as [q|]; [|discriminate].
    destruct (find q (users s)); [intros [= <-]; simpl; tauto|].
    unfold sha256Hash_of, ret, throw.
    destruct p; try discriminate.
    destruct (to_String n); [|discriminate].
    destruct (to_String e); [|discriminate].
    match goal with
    | |- context [if ?b then _ else _] => destruct b; [discriminate|]
    end.
    intros [= <-]; simpl; tauto.
  - unfold login, body_field, bind, ret, throw, sendStatus, send.
    destruct (body (request c)) as [o|]; [|discriminate].
    destruct (Js.truthy_value (Js.get o "email")) as [e|];
      [|intros [= <-]; simpl; tauto].
    destruct (Js.truthy_value (Js.get o "password")) as [p|];
      [|intros [= <-]; simpl; tauto].
    unfold sha256Hash_of, ret, throw.
    destruct p; try discriminate.
    unfold UserDao_findOne.
    destruct (by_email e) as [q|]; [|discriminate].
    destruct (find _ (users s)); [|intros [= <-]; simpl; tauto].
    unfold SessionDao_create.
    destruct (gensessionKey (clock c) =? ""); [discriminate|].
    destruct (existsb _ (sessions s)); [discriminate|].
    intros [= <-]; simpl; tauto.
  - rewrite logout_eq. intros [= <-]; simpl; tauto.
  - rewrite get_user_eq, checkLoginInterceptor_eq.
    destruct (Js.truthy (session_key_header (request c)));
      [|intros [= <-]; simpl; tauto].
    destruct (find _ (sessions s)); [|intros [= <-]; simpl; tauto].
    destruct (find _ (users s)); intros [= <-]; simpl; tauto.
  - unfold patch_user, bind. rewrite checkLoginInterceptor_eq.
    destruct (Js.truthy (session_key_header (request c)));
      [|intros [= <-]; simpl; tauto].
    destruct (find _ (sessions s)) as [se|]; [|intros [= <-]; simpl; tauto].
    destruct (patch_user_handler_cases (clock c) (request c) (userId se) s)
      as [[[code [Hin Hc]]|[f Hc]]|[u [u' [_ [_ [_ Hc]]]]]];
      rewrite Hc; cbn [fst]; try discriminate;
      intros [= <-]; cbn [status payload status_only];
      (split; [simpl; tauto | congruence]).
Qed.
End Properties.

(** * The theorems on the sample database *)

#[local] Existing Instance Sample.platform.

Lemma sample_store_wf : wf Sample.store.
Proof.
  constructor; simpl.
  - repeat constructor; simpl; intuition discriminate.
  - repeat constructor.
  - repeat constructor; simpl; intuition discriminate.
  - repeat constructor; simpl; tauto.
  - repeat constructor; discriminate.
Defined.

(** An expired session of the sample store is still accepted. *)
Lemma auth_gate_contract_witness :
  (Sample.later > expiredAt Sample.old_session)%Z
  /\ checkLoginInterceptor (Sample.with_key "k0" []) Sample.store
     = (Next 0%N, Sample.store).
Proof.
  split; [reflexivity|].
  destruct (auth_gate_contract (Sample.with_key "k0" []) Sample.store)
    as [_ [_ [_ [H _]]]].
  apply (H "k0" Sample.old_session) with (now := Sample.later).
  - reflexivity.
  - discriminate.
  - repeat constructor; simpl; tauto.
  - simpl; tauto.
  - reflexivity.
  - reflexivity.
Defined.

(** An unknown e-mail and Alice's e-mail with a wrong password. *)
Lemma login_failure_symmetry_witness :
  login 5 6 (Sample.json (Sample.strings [("email", "carol@x.com");
                                          ("password", "pw1")]))
        Sample.store
  = (Sent (status_only 404), Sample.store)
  /\ login 7 8 (Sample.json (Sample.strings [("email", "alice@x.com");
                                             ("password", "guess")]))
           Sample.store
     = (Sent (status_only 404), Sample.store).
Proof.
  apply (login_failure_symmetry Sample.store 5 6 7 8 _ _
           (Sample.strings [("email", "carol@x.com"); ("password", "pw1")])
           (Sample.strings [("email", "alice@x.com"); ("password", "guess")])
           "carol@x.com" "pw1" "alice@x.com" "guess");
    try reflexivity; try discriminate.
  - simpl. intros u [<-|[<-|[]]]; discriminate.
  - exists Sample.alice. simpl. tauto.
  - simpl. intros u [<-|[<-|[]]]; discriminate.
Defined.



(** Alice logs in at clock 5.  Her key is accepted, as hers, after two
    more calls, one of them a logout with another key; after a logout
    with her key and a failed login served at clock 5, it is
    refused. *)
Lemma session_token_lifecycle_witness :
  exists u,
    email u = "alice@x.com"
    /\ password u = Sample.digest "pw1"
    /\ (let s1 := snd (login 5 6 Sample.alice_login Sample.store) in
        let s2 := run [Sample.call GET_user 6 (Sample.with_key "k0" []);
                       Sample.call POST_logout 7 (Sample.with_key "k0" [])]
                      s1 in
        checkLoginInterceptor (presenting (Sample.digest "5")) s2
        = (Next (_id u), s2))
    /\ (let s1 := snd (login 5 6 Sample.alice_login Sample.store) in
        let s2 := snd (logout (presenting (Sample.digest "5")) s1) in
        let s3 := run [Sample.call POST_login 5
                         (Sample.json (Sample.strings
                            [("email", "alice@x.com");
                             ("password", "guess")]))] s2 in
        checkLoginInterceptor (presenting (Sample.digest "5")) s3
        = (Sent unauthenticated, s3)).
Proof.
  assert (Hlogin : login 5 6 Sample.alice_login Sample.store
                   = (Sent {| status := 200;
                              payload := LoginResponse (Sample.digest "5") |},
                      snd (login 5 6 Sample.alice_login Sample.store)))
    by reflexivity.
  destruct (session_token_lifecycle 5 6 Sample.alice_login Sample.store _ _
              Hlogin)
    as [o [e [p [q [u [Hb [He [Hp [_ [_ [Hpw [Hem [Hkeep Hout]]]]]]]]]]]]].
  injection Hb as <-. injection He as <-. injection Hp as <-.
  exists u. split; [now apply Hem|]. split; [exact Hpw|]. split.
  - apply Hkeep; [|reflexivity]. repeat constructor.
  - apply (Hout [] (presenting (Sample.digest "5"))); [reflexivity| |reflexivity].
    repeat constructor. discriminate.
Defined.

(** C4 as stated fails: Alice logs in at clock 5 and logs out; a second
    login served at the same clock value generates the same key, and
    the interceptor accepts the key that was logged out. *)
Lemma session_token_lifecycle_counterexample :
  let T := Sample.digest "5" in
  let s1 := snd (login 5 6 Sample.alice_login Sample.store) in
  let s2 := snd (logout (presenting T) s1) in
  let s3 := run [Sample.call POST_login 5 Sample.alice_login] s2 in
  fst (login 5 6 Sample.alice_login Sample.store)
    = Sent {| status := 200; payload := LoginResponse T |}
  /\ fst (logout (presenting T) s1) = Sent (status_only 200)
  /\ checkLoginInterceptor (presenting T) s2 = (Sent unauthenticated, s2)
  /\ checkLoginInterceptor (presenting T) s3 = (Next 0%N, s3).
Proof. repeat split. Qed.

(** C5 as stated fails: Alice, logged in with the key k0, sends a body
    whose one field is none of name, e-mail and password; the answer
    is 200, not 400. *)
Lemma patch_user_empty_body_counterexample :
  let b := [("nickname", Js.JStr "Al")] in
  checkLoginInterceptor (Sample.with_key "k0" b) Sample.store
    = (Next 0%N, Sample.store)
  /\ Js.get b "name" = None /\ Js.get b "email" = None
  /\ Js.get b "password" = None
  /\ patch_user 8 (Sample.with_key "k0" b) Sample.store
     = (Sent (status_only 200), Sample.store).
Proof. repeat split. Qed.

(** Alice, logged in with the key k0, sends an empty object, and an
    object whose one field has a falsy name. *)
Lemma patch_user_empty_body_witness :
  patch_user 8 (Sample.with_key "k0" []) Sample.store
  = (Sent (status_only 400), Sample.store)
  /\ patch_user 8 (Sample.with_key "k0" [("name", Js.JNull)]) Sample.store
     = (Sent (status_only 200), Sample.store).
Proof.
  split.
  - apply (patch_user_empty_body 8 (Sample.with_key "k0" []) 0%N
             Sample.alice);
      [reflexivity | reflexivity | right; reflexivity].
  - destruct (patch_user_empty_body 8
                (Sample.with_key "k0" [("name", Js.JNull)]) 0%N
                Sample.alice Sample.store eq_refl eq_refl) as [_ H].
    apply (H [("name", Js.JNull)] eq_refl).
    + right. now left.
    + now left.
    + now left.
Defined.

(** Alice asks for Bob's e-mail, and for a new name. *)
Lemma patch_user_email_conflict_witness :
  patch_user 8 (Sample.with_key "k0"
                  (Sample.strings [("name", "Al"); ("email", "b@x.com")]))
             Sample.store
  = (Sent (status_only 409), Sample.store).
Proof.
  apply (patch_user_email_conflict 8 _ 0%N Sample.alice
           (Sample.strings [("name", "Al"); ("email", "b@x.com")])
           "b@x.com");
    try reflexivity; try discriminate.
  exists Sample.bob. simpl. tauto.
Defined.

(** Alice changes her name at clock 8. *)
Lemma patch_user_name_only_witness :
  let alice' := {| _id := 0%N; name := "Al"; email := "alice@x.com";
                   password := Sample.digest "pw1"; updateAt := 8 |} in
  patch_user 8 (Sample.with_key "k0" (Sample.strings [("name", "Al")]))
             Sample.store
  = (Sent (status_only 200),
     {| users := [alice'; Sample.bob]; sessions := [Sample.old_session];
        fresh := 2%N |}).
Proof.
  apply (patch_user_name_only 8
           (Sample.with_key "k0" (Sample.strings [("name", "Al")])) 0%N
           Sample.alice (Sample.strings [("name", "Al")]) "Al");
    try reflexivity; discriminate.
Defined.

(** Two logouts with the key k0. *)
Lemma logout_idempotent_witness :
  let s1 := snd (logout (Sample.with_key "k0" []) Sample.store) in
  sessions s1 = [] /\ logout (Sample.with_key "k0" []) s1
                      = (Sent (status_only 200), s1).
Proof.
  split; [reflexivity|].
  destruct (logout_idempotent (Sample.with_key "k0" []) Sample.store)
    as [_ [_ [_ H]]].
  apply H. apply (wf_keys _ sample_store_wf).
Defined.

(** Alice and Bob both log in at clock 5, with a profile read in
    between. *)
Lemma same_millisecond_login_collides_witness :
  let bob_login := Sample.json (Sample.strings [("email", "b@x.com");
                                                ("password", "pw")]) in
  let s1 := snd (login 5 6 Sample.alice_login Sample.store) in
  let s2 := run [Sample.call GET_user 5 (Sample.with_key "k0" [])] s1 in
  gensessionKey 5 = Sample.digest "5"
  /\ login 5 7 bob_login s2 = (Thrown DuplicateKey, s2).
Proof.
  assert (Hlogin : login 5 6 Sample.alice_login Sample.store
                   = (Sent {| status := 200;
                              payload := LoginResponse (Sample.digest "5") |},
                      snd (login 5 6 Sample.alice_login Sample.store)))
    by reflexivity.
  destruct (same_millisecond_login_collides 5 6 7 Sample.alice_login
              (Sample.json (Sample.strings [("email", "b@x.com");
                                            ("password", "pw")]))
              Sample.store _ _
              [Sample.call GET_user 5 (Sample.with_key "k0" [])]
              (Sample.strings [("email", "b@x.com"); ("password", "pw")])
              "b@x.com" "pw" Sample.bob Hlogin)
    as [_ [H1 [_ H2]]]; try reflexivity; try discriminate.
  - repeat constructor.
  - simpl. tauto.
  - split; [exact H1 | exact H2].
Defined.

(** The two scenarios of the specification, on the empty database. *)
Example scenario_alice :
  let reg := Sample.json (Sample.strings
               [("name", "Alice"); ("email", "alice@x.com");
                ("password", "pw1")]) in
  let T := Sample.digest "10" in
  map (option_map status)
      (responses [Sample.call POST_register 9 reg;
                  Sample.call POST_login 10 Sample.alice_login;
                  Sample.call GET_user 11 (presenting T);
                  Sample.call POST_logout 12 (presenting T);
                  Sample.call GET_user 13 (presenting T)] empty_store)
  = [Some 200; Some 200; Some 200; Some 200; Some 401].
Proof. reflexivity. Qed.

Example scenario_bob :
  map (option_map status)
      (responses [Sample.call POST_register 1
                    (Sample.json (Sample.strings
                       [("name", "Bob"); ("email", "b@x.com");
                        ("password", "pw")]));
                  Sample.call POST_register 2
                    (Sample.json (Sample.strings
                       [("name", "Bob2"); ("email", "b@x.com");
                        ("password", "pw2")]))] empty_store)
  = [Some 200; Some 409].
Proof. reflexivity. Qed.

(** The emptiness test of PATCH /user on bodies that are not empty: a
    body whose only field is named by a number below 1, or by a
    no-break space, is refused, and a body with two fields the router
    does not know is let through and changes nothing. *)
Example patch_user_other_bodies :
  let nbsp := String (ascii_of_N 194) (String (ascii_of_N 160) "") in
  patch_user 8 (Sample.with_key "k0" (Sample.strings [("0", "Al")]))
             Sample.store
  = (Sent (status_only 400), Sample.store)
  /\ patch_user 8 (Sample.with_key "k0" (Sample.strings [(nbsp, "Al")]))
                Sample.store
     = (Sent (status_only 400), Sample.store)
  /\ patch_user 8 (Sample.with_key "k0" (Sample.strings [("0", "a");
                                                         ("1", "b")]))
                Sample.store
     = (Sent (status_only 200), Sample.store).
Proof. repeat split. Qed.

(** * The further properties on the sample database *)

(** Alice reads her profile with the key k0. *)
Lemma get_user_contract_witness :
  get_user (Sample.with_key "k0" []) Sample.store
  = (Sent {| status := 200;
             payload := UserInfo "Alice" "alice@x.com" 1000 |}, Sample.store).
Proof.
  destruct (get_user_contract (Sample.with_key "k0" []) Sample.store)
    as [_ [_ [_ H]]].
  apply (H Sample.alice).
  - reflexivity.
  - apply (wf_ids _ sample_store_wf).
  - simpl; tauto.
Defined.

(** An update without a key. *)
Lemma patch_user_unauthenticated_witness :
  patch_user 8 (Sample.json (Sample.strings [("name", "Al")])) Sample.store
  = (Sent unauthenticated, Sample.store).
Proof.
  destruct (patch_user_unauthenticated 8
              (Sample.json (Sample.strings [("name", "Al")]))
              Sample.store) as [H _].
  apply H. reflexivity.
Defined.

(** Alice's e-mail with the password [false]. *)
Lemma login_bad_request_witness :
  login 5 6 (Sample.json [("email", Js.JStr "alice@x.com");
                          ("password", Js.JBool false)]) Sample.store
  = (Sent (status_only 400), Sample.store).
Proof.
  apply (login_bad_request 5 6 _ [("email", Js.JStr "alice@x.com");
                                  ("password", Js.JBool false)]);
    [reflexivity | right; right; right; left; reflexivity].
Defined.

(** Alice logs in; the clock is 5 when the key is generated and 6 when
    the session is built. *)
Lemma login_success_witness :
  login 5 6 Sample.alice_login Sample.store
  = (Sent {| status := 200; payload := LoginResponse (Sample.digest "5") |},
     {| users := [Sample.alice; Sample.bob];
        sessions := [Sample.old_session;
                     {| sessionKey := Sample.digest "5"; userId := 0%N;
                        expiredAt := 604800006 |}];
        fresh := 2%N |}).
Proof.
  eapply eq_trans;
    [apply (login_success 5 6 Sample.alice_login
              (Sample.strings [("email", "alice@x.com"); ("password", "pw1")])
              "pw1" Sample.alice Sample.store);
       try reflexivity; try discriminate
    | reflexivity].
  - apply (wf_emails _ sample_store_wf).
  - simpl; tauto.
  - simpl. intros se [<-|[]]. discriminate.
  - split; discriminate.
Defined.

(** The key k0 survives a login of Alice, a registration and a logout
    with another key. *)
Lemma accepted_key_survives_witness :
  let cs := [Sample.call POST_login 5 Sample.alice_login;
             Sample.call POST_register 6
               (Sample.json (Sample.strings
                  [("name", "Carol"); ("email", "carol@x.com");
                   ("password", "pw3")]));
             Sample.call POST_logout 7 (Sample.with_key "other" [])] in
  checkLoginInterceptor (presenting "k0") (run cs Sample.store)
  = (Next 0%N, run cs Sample.store).
Proof.
  intros cs.
  apply (accepted_key_survives "k0" (presenting "k0") 0%N cs Sample.store);
    [repeat constructor | reflexivity | reflexivity].
Defined.

(** A key that was never issued stays invalid through a login at
    another clock value. *)
Lemma rejected_key_stays_rejected_witness :
  let cs := [Sample.call POST_login 5 Sample.alice_login] in
  checkLoginInterceptor (presenting "guess") (run cs Sample.store)
  = (Sent unauthenticated, run cs Sample.store).
Proof.
  intros cs.
  apply (rejected_key_stays_rejected "guess" (presenting "guess") cs
           Sample.store);
    [repeat constructor | reflexivity | reflexivity].
Defined.

(** A login leaves the users of the sample store alone. *)
Lemma serve_frame_witness :
  users (snd (serve (Sample.call POST_login 5 Sample.alice_login)
                    Sample.store))
  = users Sample.store.
Proof.
  destruct (serve_frame (Sample.call POST_login 5 Sample.alice_login)
              Sample.store) as [_ H].
  apply H. left. reflexivity.
Defined.

(** Carol registers twice. *)
Lemma register_twice_witness :
  let carol := Sample.json (Sample.strings
                 [("name", "Carol"); ("email", "carol@x.com");
                  ("password", "pw3")]) in
  let s1 := snd (register 7 carol Sample.store) in
  register 8 (Sample.json (Sample.strings
                [("name", "C"); ("email", "carol@x.com");
                 ("password", "other")])) s1
  = (Sent (status_only 409), s1).
Proof.
  intros carol s1.
  apply (register_twice 7 8 carol _
           (Sample.strings [("name", "Carol"); ("email", "carol@x.com");
                            ("password", "pw3")])
           (Sample.strings [("name", "C"); ("email", "carol@x.com");
                            ("password", "other")])
           "carol@x.com" "C" "other" Sample.store);
    try reflexivity; discriminate.
Defined.

(** A logout with a key that is not stored. *)
Lemma logout_unknown_key_witness :
  logout (Sample.with_key "guess" []) Sample.store
  = (Sent (status_only 200), Sample.store).
Proof.
  destruct (logout_unknown_key (Sample.with_key "guess" []) Sample.store)
    as [_ H].
  apply (H "guess"); [reflexivity|].
  simpl. intros se [<-|[]]. discriminate.
Defined.

(** Alice moves to a new address at clock 8. *)
Lemma patch_user_email_change_witness :
  let alice' := {| _id := 0%N; name := "Alice"; email := "al@x.com";
                   password := Sample.digest "pw1"; updateAt := 8 |} in
  patch_user 8 (Sample.with_key "k0" (Sample.strings [("email", "al@x.com")]))
             Sample.store
  = (Sent (status_only 200),
     {| users := [alice'; Sample.bob]; sessions := [Sample.old_session];
        fresh := 2%N |}).
Proof.
  intros alice'.
  destruct (patch_user_email_change 8
              (Sample.with_key "k0" (Sample.strings [("email", "al@x.com")]))
              0%N Sample.alice (Sample.strings [("email", "al@x.com")])
              "al@x.com" Sample.store)
    as [H _]; try reflexivity; try discriminate; try exact H.
  simpl. intros v [<-|[<-|[]]]; discriminate.
Defined.

(** Alice changes her password at clock 8; the old one is then refused. *)
Lemma patch_user_password_change_witness :
  let s' := snd (patch_user 8 (Sample.with_key "k0"
                                 (Sample.strings [("password", "new")]))
                            Sample.store) in
  login 9 10 Sample.alice_login s' = (Sent (status_only 404), s')
  /\ fst (login 9 10 (Sample.json (Sample.strings
                         [("email", "alice@x.com"); ("password", "new")]))
                 s')
     = Sent {| status := 200; payload := LoginResponse (Sample.digest "9") |}.
Proof.
  intros s'.
  destruct (patch_user_password_change 8
              (Sample.with_key "k0" (Sample.strings [("password", "new")]))
              0%N Sample.alice (Sample.strings [("password", "new")]) "new"
              Sample.store sample_store_wf)
    as [_ [Hold Hnew]]; try reflexivity; try discriminate.
  split.
  - refine (Hold 9%Z 10%Z Sample.alice_login
              (Sample.strings [("email", "alice@x.com"); ("password", "pw1")])
              "pw1" eq_refl eq_refl eq_refl _ _); discriminate.
  - refine (Hnew 9%Z 10%Z
              (Sample.json (Sample.strings
                 [("email", "alice@x.com"); ("password", "new")]))
              (Sample.strings [("email", "alice@x.com"); ("password", "new")])
              eq_refl eq_refl eq_refl _ _); [discriminate|].
    simpl. intros se [<-|[]]. discriminate.
Defined.

(** Alice sends her own e-mail, an empty name and the password
    [null]. *)
Lemma patch_user_no_change_witness :
  patch_user 8 (Sample.with_key "k0" [("email", Js.JStr "alice@x.com");
                                      ("name", Js.JStr "");
                                      ("password", Js.JNull)])
             Sample.store
  = (Sent (status_only 200), Sample.store).
Proof.
  apply (patch_user_no_change 8 _ 0%N Sample.alice
           [("email", Js.JStr "alice@x.com"); ("name", Js.JStr "");
            ("password", Js.JNull)]);
    try reflexivity.
  - right. reflexivity.
  - right; right; right; left. reflexivity.
  - right; left. reflexivity.
Defined.

(** An object whose only field is named by a space, a no-break space
    and a line separator is taken for empty; an object with the field
    nickname is not. *)
Lemma emptiness_test_spec_witness :
  let blank := string_of_list_ascii
                 (map ascii_of_N [32; 194; 160; 226; 128; 168]%N) in
  Js.array_lt_one (Js.keys [(blank, Js.JStr "x")]) = true
  /\ Js.array_lt_one (Js.keys [("nickname", Js.JStr "Al")]) = false.
Proof.
  intros blank. split.
  - destruct (emptiness_test_spec [(blank, Js.JStr "x")]) as [_ [_ [_ H]]].
    apply (H blank (Js.JStr "x")
             (map (map ascii_of_N) [[32]; [194; 160]; [226; 128; 168]]%N));
      [reflexivity | | reflexivity].
    repeat constructor; vm_compute; tauto.
  - destruct (emptiness_test_spec [("nickname", Js.JStr "Al")])
      as [_ [_ [H _]]].
    apply (H "nickname" "k"%char); [simpl; tauto | simpl; tauto | reflexivity].
Defined.

(** Alice renames herself and reads her profile. *)
Lemma patch_name_then_get_witness :
  let s' := snd (patch_user 8 (Sample.with_key "k0"
                                 (Sample.strings [("name", "Al")]))
                            Sample.store) in
  get_user (presenting "k0") s'
  = (Sent {| status := 200; payload := UserInfo "Al" "alice@x.com" 8 |}, s').
Proof.
  apply (patch_name_then_get 8
           (Sample.with_key "k0" (Sample.strings [("name", "Al")]))
           (presenting "k0") 0%N Sample.alice
           (Sample.strings [("name", "Al")]) "Al" Sample.store);
    try reflexivity; discriminate.
Defined.

(** Carol registers, logs in at clock 9 and reads her profile. *)
Lemma register_login_get_witness :
  let carol := Sample.strings [("name", "Carol"); ("email", "carol@x.com");
                               ("password", "pw3")] in
  let s1 := snd (register 7 (Sample.json carol) Sample.store) in
  let s2 := snd (login 9 10 (Sample.json carol) s1) in
  exists t,
    get_user (presenting (Sample.digest "9")) s2
    = (Sent {| status := 200; payload := UserInfo "Carol" "carol@x.com" t |},
       s2).
Proof.
  intros carol s1 s2.
  destruct (register_login_get 7 9 10 (Sample.json carol) (Sample.json carol)
              carol carol "Carol" "carol@x.com" "pw3" Sample.store
              sample_store_wf)
    as [_ [_ H]]; try reflexivity; try discriminate; try exact H.
  - simpl. intros v [<-|[<-|[]]]; discriminate.
  - simpl. intros se [<-|[]]. discriminate.
Defined.

(** Alice registers on the empty database, logs in at clock 10 and is
    found behind her key. *)
Lemma session_user_exists_witness :
  let cs := [Sample.call POST_register 9
               (Sample.json (Sample.strings
                  [("name", "Alice"); ("email", "alice@x.com");
                   ("password", "pw1")]));
             Sample.call POST_login 10 Sample.alice_login] in
  exists u,
    In u (users (run cs empty_store)) /\ _id u = 0%N
    /\ get_user (presenting (Sample.digest "10")) (run cs empty_store)
       = (Sent {| status := 200;
                  payload := UserInfo (name u) (email u) (updateAt u) |},
          run cs empty_store).
Proof.
  intros cs.
  apply (session_user_exists cs (presenting (Sample.digest "10")) 0%N).
  reflexivity.
Defined.

(** Two logins at the same clock value leave one session of that key. *)
Lemma session_keys_invariant_witness :
  let cs := [Sample.call POST_register 9
               (Sample.json (Sample.strings
                  [("name", "Alice"); ("email", "alice@x.com");
                   ("password", "pw1")]));
             Sample.call POST_login 10 Sample.alice_login;
             Sample.call POST_login 10 Sample.alice_login] in
  NoDup (map sessionKey (sessions (run cs empty_store)))
  /\ length (sessions (run cs empty_store)) = 1%nat.
Proof.
  intros cs. split; [|reflexivity].
  apply (proj1 (session_keys_invariant cs)).
Defined.

(** An update of Alice's name is answered; a login whose password is
    the number 1 is not. *)
Lemma always_responds_witness :
  (exists r,
     fst (serve (Sample.call PATCH_user 8
                   (Sample.with_key "k0" (Sample.strings [("name", "Al")])))
                Sample.store) = Sent r)
  /\ serve (Sample.call POST_login 5
              (Sample.json [("email", Js.JStr "b@x.com");
                            ("password", Js.JNum false 1 0)]))
           Sample.store
     = (Thrown TypeError, Sample.store).
Proof.
  split.
  - destruct (always_responds
                (Sample.call PATCH_user 8
                   (Sample.with_key "k0" (Sample.strings [("name", "Al")])))
                Sample.store) as [_ [H _]].
    apply H; [|left; reflexivity].
    intros o k v Hb Hk Hv. injection Hb as <-.
    destruct Hk as [<-|[<-|[<-|[]]]]; try discriminate.
    injection Hv as <-. now exists "Al".
  - destruct (always_responds
                (Sample.call POST_login 5
                   (Sample.json [("email", Js.JStr "b@x.com");
                                 ("password", Js.JNum false 1 0)]))
                Sample.store) as [_ [_ [_ H]]].
    apply (H eq_refl [("email", Js.JStr "b@x.com");
                      ("password", Js.JNum false 1 0)]
             (Js.JStr "b@x.com") (Js.JNum false 1 0));
      try reflexivity.
    discriminate.
Defined.

(** Alice asks for Bob's e-mail: the status is one of PATCH /user. *)
Lemma status_codes_witness :
  let c := Sample.call PATCH_user 8
             (Sample.with_key "k0" (Sample.strings [("email", "b@x.com")])) in
  fst (serve c Sample.store) = Sent (status_only 409)
  /\ In 409%nat [200; 400; 401; 409]%nat.
Proof.
  intros c. split; [reflexivity|].
  apply (status_codes c Sample.store (status_only 409)).
  reflexivity.
Defined.
